(** * xserial: a shallow embedding of the serial-port driver

    The development follows the three Go sources of the package:
    - [serial.go]: the configuration record, the package's error values;
    - [serial_linux.go]: the Linux driver (module [Linux]);
    - [serial_darwin.go]: the Darwin driver, whose line-discipline
      functions are stubs (module [Darwin]).

    Integers of the Go code are [Z] with the wrap-around of their width
    written out where the code does arithmetic on them.  The operating
    system is an arbitrary deterministic transition system ([OS]); every
    call the driver makes is also recorded in a trace, so that statements
    such as "the descriptor is closed" or "exactly one read is issued" can
    be made.  The mutex [mx] of the handle is not part of the model: all
    statements are about one sequential caller. *)

From Stdlib Require Import ZArith String List Lia Bool.
From stdpp Require Import base gmap list strings.

Local Open Scope Z_scope.

(** ** Machine integers *)

(** Wrap-around of a signed 64-bit integer (Go's [int] and [int64] on the
    64-bit targets, [time.Duration]). *)
Definition wrap64 (z : Z) : Z := (z + 2 ^ 63) mod 2 ^ 64 - 2 ^ 63.

(** ** Constants of [golang.org/x/sys/unix] for linux (amd64, 386, arm, arm64) *)
Module unix.
Definition B50 : Z := 0x1.
Definition B75 : Z := 0x2.
Definition B110 : Z := 0x3.
Definition B134 : Z := 0x4.
Definition B150 : Z := 0x5.
Definition B200 : Z := 0x6.
Definition B300 : Z := 0x7.
Definition B600 : Z := 0x8.
Definition B1200 : Z := 0x9.
Definition B1800 : Z := 0xa.
Definition B2400 : Z := 0xb.
Definition B4800 : Z := 0xc.
Definition B9600 : Z := 0xd.
Definition B19200 : Z := 0xe.
Definition B38400 : Z := 0xf.
Definition B57600 : Z := 0x1001.
Definition B115200 : Z := 0x1002.
Definition B230400 : Z := 0x1003.
Definition B460800 : Z := 0x1004.
Definition B500000 : Z := 0x1005.
Definition B576000 : Z := 0x1006.
Definition B921600 : Z := 0x1007.
Definition B1000000 : Z := 0x1008.
Definition B1152000 : Z := 0x1009.
Definition B1500000 : Z := 0x100a.
Definition B2000000 : Z := 0x100b.
Definition B2500000 : Z := 0x100c.
Definition B3000000 : Z := 0x100d.
Definition B3500000 : Z := 0x100e.
Definition B4000000 : Z := 0x100f.
(** The mask of the baud-rate bits inside the control flags. *)
Definition CBAUD : Z := 0x100f.

Definition CREAD : Z := 0x80.
Definition CLOCAL : Z := 0x800.
Definition CS8 : Z := 0x30.
Definition CSTOPB : Z := 0x40.
Definition PARENB : Z := 0x100.
Definition PARODD : Z := 0x200.
Definition CMSPAR : Z := 0x40000000.
Definition CRTSCTS : Z := 0x80000000.

Definition IGNPAR : Z := 0x4.
Definition PARMRK : Z := 0x8.
Definition INPCK : Z := 0x10.
Definition IXON : Z := 0x400.
Definition IXOFF : Z := 0x1000.

Definition VTIME : Z := 0x5.
Definition VMIN : Z := 0x6.

Definition O_RDWR : Z := 0x2.
Definition O_EXCL : Z := 0x80.
Definition O_NOCTTY : Z := 0x100.
Definition O_NONBLOCK : Z := 0x800.

Definition TCGETS : Z := 0x5401.
Definition TCSETS : Z := 0x5402.
Definition TIOCEXCL : Z := 0x540c.
Definition TIOCNXCL : Z := 0x540d.
Definition TCIOFLUSH : Z := 0x2.

Definition EINTR : Z := 0x4.
Definition EIO : Z := 0x5.
Definition EBUSY : Z := 0x10.
Definition ENOTTY : Z := 0x19.

Definition FD_SETSIZE : Z := 0x400.

(** [unix.Termios]: four [uint32] flag words, the line discipline, the
    nineteen control characters and the two speeds. *)
Record Termios : Type := mkTermios {
  Iflag : Z;
  Oflag : Z;
  Cflag : Z;
  Lflag : Z;
  Line : Z;
  Cc : list Z;
  Ispeed : Z;
  Ospeed : Z
}.

(** [unix.Timeval]: seconds and microseconds, both [int64]. *)
Record Timeval : Type := mkTimeval { Sec : Z; Usec : Z }.

(** [unix.FdSet]: [Bits [16]int64]. *)
Record FdSet : Type := mkFdSet { Bits : list Z }.

(** [unix.NsecToTimeval], with Go's truncated division and remainder:
<<
    nsec += 999 // round up to microsecond
    usec := nsec % 1e9 / 1e3
    sec := nsec / 1e9
    if usec < 0 { usec += 1e6; sec-- }
    return setTimeval(sec, usec)
>> *)
Definition NsecToTimeval (nsec : Z) : Timeval :=
  let nsec := wrap64 (nsec + 999) in
  let usec := Z.quot (Z.rem nsec 1000000000) 1000 in
  let sec := Z.quot nsec 1000000000 in
  if usec <? 0 then mkTimeval (wrap64 (sec - 1)) (usec + 1000000)
  else mkTimeval sec usec.
End unix.

Import unix.

(** The zero value of a [unix.Termios]. *)
Definition Termios_zero : Termios :=
  mkTermios 0 0 0 0 0 (replicate 19 0) 0 0.

(** The zero value of a [unix.FdSet]. *)
Definition FdSet_zero : FdSet := mkFdSet (replicate 16 0).

(** Field assignments on a [Termios] value. *)
Definition with_Iflag (v : Z) (t : Termios) : Termios :=
  mkTermios v (Oflag t) (Cflag t) (Lflag t) (Line t) (Cc t) (Ispeed t) (Ospeed t).
Definition with_Cflag (v : Z) (t : Termios) : Termios :=
  mkTermios (Iflag t) (Oflag t) v (Lflag t) (Line t) (Cc t) (Ispeed t) (Ospeed t).
Definition with_Cc (v : list Z) (t : Termios) : Termios :=
  mkTermios (Iflag t) (Oflag t) (Cflag t) (Lflag t) (Line t) v (Ispeed t) (Ospeed t).
Definition with_Ispeed (v : Z) (t : Termios) : Termios :=
  mkTermios (Iflag t) (Oflag t) (Cflag t) (Lflag t) (Line t) (Cc t) v (Ospeed t).
Definition with_Ospeed (v : Z) (t : Termios) : Termios :=
  mkTermios (Iflag t) (Oflag t) (Cflag t) (Lflag t) (Line t) (Cc t) (Ispeed t) v.

(** [t.Cflag |= m], [t.Cflag &^= m], [t.Iflag |= m], [t.Iflag &^= m]. *)
Definition Cflag_or (m : Z) (t : Termios) : Termios :=
  with_Cflag (Z.lor (Cflag t) m) t.
Definition Cflag_andnot (m : Z) (t : Termios) : Termios :=
  with_Cflag (Z.ldiff (Cflag t) m) t.
Definition Iflag_or (m : Z) (t : Termios) : Termios :=
  with_Iflag (Z.lor (Iflag t) m) t.
Definition Iflag_andnot (m : Z) (t : Termios) : Termios :=
  with_Iflag (Z.ldiff (Iflag t) m) t.

(** [t.Cc[i] = v] for a constant index inside the array. *)
Definition Cc_set (i : Z) (v : Z) (t : Termios) : Termios :=
  with_Cc (<[Z.to_nat i := v]> (Cc t)) t.

(** ** [serial.go] *)

Definition FlowNone : Z := 0.
Definition FlowHardware : Z := 1.
Definition FlowSoft : Z := 2.

(** [Config]; [ReadTimeout] is a [time.Duration], an [int64] count of
    nanoseconds; [Flow] is a byte. *)
Record Config : Type := mkConfig {
  Name : string;
  Baud : Z;
  ReadTimeout : Z;
  Parity : string;
  StopBits : Z;
  Flow : Z
}.

Definition Config_zero : Config := mkConfig "" 0 0 "" 0 0.

(** Go's [error] values of the package.  The seven package-level
    variables are compared by identity and get a constructor each;
    [Errno] is a [syscall.Errno] handed up from [golang.org/x/sys/unix];
    [Errorf] is any other [fmt.Errorf] value, with the errors formatted
    into it.  [nil] is [None : option error]. *)
Set Warnings "-register-all".
Inductive error : Type :=
| ErrNotImplemented
| ErrPortNotInitialized
| ErrNotOpen
| ErrAlreadyOpen
| ErrAccessDenied
| ErrPortClosed
| ErrReadTimeout
| Errno (e : Z)
| Errorf (format : string) (args : list error).

(** [time.Millisecond], a [time.Duration]. *)
Definition Millisecond : Z := 1000000.

(** ** The operating system *)

(** The calls the driver makes, with the arguments it passes.  [SysLsof]
    is [exec.Command("lsof", "-t", name).Run()]; [SysIoctl] is an ioctl
    whose third argument is a plain integer; [SysTcgets] and [SysTcsets]
    are the two ioctls that take a pointer to a [Termios]. *)
Inductive syscall : Type :=
| SysLsof (name : string)
| SysOpen (name : string) (flags perm : Z)
| SysClose (fd : Z)
| SysIoctl (fd req arg : Z)
| SysTcgets (fd : Z)
| SysTcsets (fd : Z) (t : Termios)
| SysSetNonblock (fd : Z) (nonblocking : bool)
| SysSelect (nfds : Z) (rfds : FdSet) (tv : option Timeval)
| SysRead (fd : Z) (p : list Z)
| SysWrite (fd : Z) (p : list Z).

(** An operating system over worlds [W]: what each call answers in a
    world, and the world it leaves.  An errno of [0] is success.
    [os_lsof] answers [None] when the command ran and exited with status
    0, and otherwise the text of the Go error.  [os_tcgets] answers the
    settings the kernel wrote through the pointer; [os_select] answers
    the descriptor set and the timeout the kernel left behind;
    [os_read] answers the buffer after the call and the length. *)
Class OS (W : Type) : Type := mkOS {
  os_lsof : string -> W -> option string * W;
  os_open : string -> Z -> Z -> W -> (Z * Z) * W;
  os_close : Z -> W -> Z * W;
  os_ioctl : Z -> Z -> Z -> W -> Z * W;
  os_tcgets : Z -> Termios -> W -> (Termios * Z) * W;
  os_tcsets : Z -> Termios -> W -> Z * W;
  os_setnonblock : Z -> bool -> W -> Z * W;
  os_select : Z -> FdSet -> option Timeval -> W ->
              (FdSet * option Timeval * Z) * W;
  os_read : Z -> list Z -> W -> (list Z * Z * Z) * W;
  os_write : Z -> list Z -> W -> (Z * Z) * W
}.

(** The handle: [serialPort] without its mutex. *)
Record serialPort : Type := mkPort {
  fd : Z;
  opened : bool;
  conf : Config
}.

Definition serialPort_zero : serialPort := mkPort 0 false Config_zero.

(** What a call of the package leaves behind: the handle [s], the world,
    and the calls made so far, the most recent first. *)
Record state (W : Type) : Type := mkState {
  port : serialPort;
  world : W;
  trace : list syscall
}.

Arguments mkState {W}.
Arguments port {W}.
Arguments world {W}.
Arguments trace {W}.

(** How a Go call can end: it returns, it panics, or (in the model
    only) the bound on the iterations of a retry loop is used up. *)
Inductive outcome (A : Type) : Type :=
| Returns (a : A)
| Panics
| OutOfFuel.

Arguments Returns {A}.
Arguments Panics {A}.
Arguments OutOfFuel {A}.

(** The state monad of the driver. *)
Definition M (W A : Type) : Type := state W -> A * state W.

Definition ret {W A : Type} (a : A) : M W A := fun st => (a, st).

Definition bind {W A B : Type} (c : M W A) (k : A -> M W B) : M W B :=
  fun st => let (a, st') := c st in k a st'.

Declare Scope go_scope.
Delimit Scope go_scope with go.

Notation "x <- c ;; k" := (bind c (fun x => k))
  (at level 100, c at next level, right associativity) : go_scope.
Notation "c ;; k" := (bind c (fun _ => k))
  (at level 100, right associativity) : go_scope.

(** [defer d] around a body: the body computes the values to return,
    then [d] runs, then the function returns them.  The arguments of a
    deferred call are evaluated at the [defer] statement, so [d] is
    built there, from the values the variables have at that point. *)
Definition defer {W A : Type} (d : M W unit) (body : M W A) : M W A :=
  (r <- body ;; d ;; ret r)%go.

(** [syscall.Errno] to [error]: [nil] for zero. *)
Definition errnoErr (e : Z) : option error :=
  if e =? 0 then None else Some (Errno e).

(** [err == unix.EINTR] on an [error]. *)
Definition is_EINTR (err : option error) : bool :=
  match err with
  | Some (Errno e) => e =? EINTR
  | _ => false
  end.

(** [x << uint(pos)] on an [int64]: a shift count of 64 or more, which
    is what a negative [pos] converts to, gives 0. *)
Definition shl64 (x pos : Z) : Z :=
  if (0 <=? pos) && (pos <? 64) then wrap64 (Z.shiftl x pos) else 0.

(** [fdget]: [len(fds.Bits)] is 16. *)
Definition fdget (fd : Z) (fds : FdSet) : Z * Z :=
  let len := Z.of_nat (length (Bits fds)) in
  let index := Z.rem (Z.quot fd (Z.quot FD_SETSIZE len)) len in
  let offset := Z.rem fd (Z.quot FD_SETSIZE len) in
  (index, offset).

(** [fdset]: [fds.Bits[idx] = 1 << uint(pos)]; [None] is the panic of an
    index out of range. *)
Definition fdset (fd : Z) (fds : FdSet) : option FdSet :=
  let '(idx, pos) := fdget fd fds in
  if (0 <=? idx) && (idx <? Z.of_nat (length (Bits fds)))
  then Some (mkFdSet (<[Z.to_nat idx := shl64 1 pos]> (Bits fds)))
  else None.

(** [fdisset]: [fds.Bits[idx]&(1<<uint(pos)) != 0]. *)
Definition fdisset (fd : Z) (fds : FdSet) : option bool :=
  let '(idx, pos) := fdget fd fds in
  if (0 <=? idx) && (idx <? Z.of_nat (length (Bits fds)))
  then match Bits fds !! Z.to_nat idx with
       | Some b => Some (negb (Z.land b (shl64 1 pos) =? 0))
       | None => None
       end
  else None.

(** ** Calls to the operating system and accesses to the handle *)
Section Runtime.

Context {W : Type} {os : OS W}.

Local Open Scope go_scope.

(** One call to the operating system: the answer, the new world, and
    the call added to the trace. *)
Definition sys {A : Type} (c : syscall) (f : W -> A * W) : M W A :=
  fun st =>
    let (a, w) := f (world st) in
    (a, mkState (port st) w (c :: trace st)).

(** Reading and writing the fields of the handle [s]. *)
Definition get_s : M W serialPort := fun st => (port st, st).
Definition set_s (s : serialPort) : M W unit :=
  fun st => (tt, mkState s (world st) (trace st)).
Definition set_fd (v : Z) : M W unit :=
  s <- get_s ;; set_s (mkPort v (opened s) (conf s)).
Definition set_opened (v : bool) : M W unit :=
  s <- get_s ;; set_s (mkPort (fd s) v (conf s)).
Definition set_conf (v : Config) : M W unit :=
  s <- get_s ;; set_s (mkPort (fd s) (opened s) v).

(** The wrappers of [golang.org/x/sys/unix] the driver uses. *)
Definition unix_Open (name : string) (flags perm : Z)
  : M W (Z * option error) :=
  r <- sys (SysOpen name flags perm) (os_open name flags perm) ;;
  ret (fst r, errnoErr (snd r)).
Definition unix_Close (d : Z) : M W (option error) :=
  e <- sys (SysClose d) (os_close d) ;; ret (errnoErr e).
Definition unix_ioctl (d req arg : Z) : M W Z :=
  sys (SysIoctl d req arg) (os_ioctl d req arg).
Definition unix_SetNonblock (d : Z) (nonblocking : bool)
  : M W (option error) :=
  e <- sys (SysSetNonblock d nonblocking) (os_setnonblock d nonblocking) ;;
  ret (errnoErr e).
Definition unix_Read (d : Z) (p : list Z) : M W (list Z * Z * option error) :=
  r <- sys (SysRead d p) (os_read d p) ;;
  ret (fst (fst r), snd (fst r), errnoErr (snd r)).
Definition unix_Write (d : Z) (p : list Z) : M W (Z * option error) :=
  r <- sys (SysWrite d p) (os_write d p) ;;
  ret (fst r, errnoErr (snd r)).

(** [exec.Command("lsof", "-t", name).Run()]: [nil], or the text of the
    error. *)
Definition lsof (name : string) : M W (option string) :=
  sys (SysLsof name) (os_lsof name).

End Runtime.

(** ** [serial_linux.go] *)
Module Linux.

(** [baudRates]. *)
Definition baudRates : gmap Z Z :=
  list_to_map
    [ (50, B50); (75, B75); (110, B110); (134, B134); (150, B150);
      (200, B200); (300, B300); (600, B600); (1200, B1200); (1800, B1800);
      (2400, B2400); (4800, B4800); (9600, B9600); (19200, B19200);
      (38400, B38400); (57600, B57600); (115200, B115200);
      (230400, B230400); (460800, B460800); (500000, B500000);
      (576000, B576000); (921600, B921600); (1000000, B1000000);
      (1152000, B1152000); (1500000, B1500000); (2000000, B2000000);
      (2500000, B2500000); (3000000, B3000000); (3500000, B3500000);
      (4000000, B4000000) ].

(** [getTermiosFor]: the settings and the error, as Go returns them. *)
Definition getTermiosFor (cfg : Config) : Termios * option error :=
  let t := Termios_zero in
  let t := with_Cflag (Z.lor (Z.lor CREAD CLOCAL) CS8) t in
  let t := with_Iflag IGNPAR t in
  let t := Cc_set VMIN 0 t in
  let t := Cc_set VTIME 0 t in
  let baud :=
    if Baud cfg =? 0 then B19200
    else match baudRates !! Baud cfg with
         | Some value => value
         | None => 0
         end in
  let t := Cflag_or baud t in
  let t := with_Ispeed baud t in
  let t := with_Ospeed baud t in
  let t := Cflag_andnot (Z.lor (Z.lor PARENB PARODD) CMSPAR) t in
  match
    (if String.eqb (Parity cfg) "N" then Some t
     else if String.eqb (Parity cfg) "E" then Some (Cflag_or PARENB t)
     else if String.eqb (Parity cfg) "O" then
       Some (Cflag_or (Z.lor PARENB PARODD) t)
     else if String.eqb (Parity cfg) "S" then
       Some (Cflag_or (Z.lor PARENB CMSPAR) t)
     else if String.eqb (Parity cfg) "M" then
       Some (Cflag_or (Z.lor (Z.lor PARENB PARODD) CMSPAR) t)
     else if String.eqb (Parity cfg) "G" then
       let t := Cflag_or CMSPAR t in
       let t := Cflag_andnot PARODD t in
       let t := Cflag_or PARENB t in
       let t := Iflag_or INPCK t in
       let t := Iflag_or PARMRK t in
       let t := Iflag_andnot IGNPAR t in
       Some t
     else None)
  with
  | None => (Termios_zero, Some (Errorf "invalid or not supported parity" []))
  | Some t =>
    let t := Cflag_andnot CSTOPB t in
    match
      (if (StopBits cfg =? 0) || (StopBits cfg =? 1) then Some t
       else if StopBits cfg =? 2 then Some (Cflag_or CSTOPB t)
       else None)
    with
    | None =>
      (Termios_zero, Some (Errorf "invalid or not supported stop bits" []))
    | Some t =>
      let t := Cflag_andnot CRTSCTS t in
      let t := Iflag_andnot (Z.lor IXON IXOFF) t in
      match
        (if Flow cfg =? FlowNone then Some t
         else if Flow cfg =? FlowSoft then
           Some (Iflag_or (Z.lor IXON IXOFF) t)
         else if Flow cfg =? FlowHardware then Some (Cflag_or CRTSCTS t)
         else None)
      with
      | None =>
        (Termios_zero,
         Some (Errorf "invalid or not supported flow control" []))
      | Some t =>
        let t := if ReadTimeout cfg =? 0 then Cc_set VMIN 0 t else t in
        (t, None)
      end
    end
  end.

Section Driver.

Context {W : Type} {os : OS W}.

Local Open Scope go_scope.

(** The closure deferred by [Open] and by [openPort],
    [func(fd int, err error) { if fd != 0 && err != nil { ... } }],
    applied to its two arguments. *)
Definition auto_close (d : Z) (err : option error) : M W unit :=
  if negb (d =? 0) && bool_decide (err <> None) then
    _ <- unix_Close d ;;
    set_fd 0 ;;
    set_opened false
  else ret tt.

(** [Close]. *)
Definition Close : M W (option error) :=
  s <- get_s ;;
  if negb (opened s) then ret (Some ErrPortNotInitialized)
  else
    defer (set_fd 0 ;; set_opened false)
      (s <- get_s ;;
       e1 <- unix_ioctl (fd s) TIOCNXCL 0 ;;
       if negb (e1 =? 0) then
         ret (Some (Errorf "failed to release exclusive access - %v"
                      [Errno e1]))
       else
         s <- get_s ;;
         unix_Close (fd s)).

(** [Open]. *)
Definition Open (name : string) : M W (option error) :=
  s <- get_s ;;
  (if opened s then _ <- Close ;; ret tt else ret tt) ;;
  err <- lsof name ;;
  match err with
  | None => ret (Some ErrAlreadyOpen)
  | Some msg =>
    if negb (String.eqb msg "exit status 1") then ret (Some ErrAccessDenied)
    else
      r <- unix_Open name
             (Z.lor (Z.lor (Z.lor O_RDWR O_NOCTTY) O_NONBLOCK) O_EXCL) 0 ;;
      let d := fst r in
      let err := snd r in
      match err with
      | Some _ => ret err
      | None =>
        set_fd d ;;
        set_opened true ;;
        defer (auto_close d err)
          (e1 <- unix_ioctl d TIOCEXCL 0 ;;
           if negb (e1 =? 0) then
             ret (Some (Errorf "failed to get exclusive access - %v"
                          [Errno e1]))
           else ret err)
      end
  end.

(** [SetTermios]. *)
Definition SetTermios (t : Termios) : M W (option error) :=
  s <- get_s ;;
  if negb (opened s) then ret (Some ErrNotOpen)
  else
    e1 <- sys (SysTcsets (fd s) t) (os_tcsets (fd s) t) ;;
    if negb (e1 =? 0) then ret (Some (Errno e1)) else ret None.

(** [GetTermios]. *)
Definition GetTermios : M W (Termios * option error) :=
  let t := Termios_zero in
  s <- get_s ;;
  if negb (opened s) then ret (t, Some ErrNotOpen)
  else
    r <- sys (SysTcgets (fd s)) (os_tcgets (fd s) t) ;;
    let t := fst r in
    let e1 := snd r in
    if negb (e1 =? 0) then ret (Termios_zero, Some (Errno e1))
    else ret (t, None).

(** The handle an [openPort] returns: [nil], or the pointer [s]. *)
Inductive Port : Type := nil_Port | handle.

(** [openPort]. *)
Definition openPort (cfg : Config) : M W (Port * option error) :=
  set_s serialPort_zero ;;
  let t := fst (getTermiosFor cfg) in
  let err := snd (getTermiosFor cfg) in
  match err with
  | Some _ => ret (nil_Port, err)
  | None =>
    err <- Open (Name cfg) ;;
    match err with
    | Some _ => ret (nil_Port, err)
    | None =>
      s <- get_s ;;
      defer (auto_close (fd s) err)
        (err <- SetTermios t ;;
         match err with
         | Some _ => ret (nil_Port, err)
         | None =>
           set_conf cfg ;;
           s <- get_s ;;
           err <- unix_SetNonblock (fd s) false ;;
           match err with
           | Some _ => ret (nil_Port, err)
           | None => ret (handle, err)
           end
         end)
    end
  end.

(** [unixSelect]: only the error of [unix.Select] is returned; the
    descriptor set and the timeout are updated through their pointers. *)
Definition unixSelect (n : Z) (r : FdSet) (tv : option Timeval)
  : M W (FdSet * option Timeval * option error) :=
  a <- sys (SysSelect n r tv) (os_select n r tv) ;;
  ret (fst (fst a), snd (fst a), errnoErr (snd a)).

(** The timeout [Read] prepares before it takes the lock: [tv] stays
    [nil] unless the configured timeout is positive. *)
Definition read_timeval (s : serialPort) : option Timeval :=
  if 0 <? ReadTimeout (conf s) then
    let tempTime := wrap64 (ReadTimeout (conf s) * Millisecond) in
    let timeout := NsecToTimeval tempTime in
    Some timeout
  else None.

(** The first loop of [Read]: [unix.Select] is retried while it answers
    [EINTR]; the loop is left by [break] with [nil], or the function
    returns the wrapped error. *)
Fixpoint select_loop (fuel : nat) (d : Z) (rfds : FdSet)
    (tv : option Timeval) : M W (outcome (FdSet * option error)) :=
  match fuel with
  | O => ret OutOfFuel
  | S fuel' =>
    a <- unixSelect (wrap64 (d + 1)) rfds tv ;;
    let rfds := fst (fst a) in
    let tv := snd (fst a) in
    let err := snd a in
    match err with
    | None => ret (Returns (rfds, None))
    | Some e =>
      if negb (is_EINTR err) then
        ret (Returns
               (rfds, Some (Errorf "serial: could not select: %v" [e])))
      else select_loop fuel' d rfds tv
    end
  end.

(** The second loop of [Read]: [unix.Read] is retried while it answers
    [EINTR]; any other answer is returned with a negative length
    replaced by 0. *)
Fixpoint read_loop (fuel : nat) (p : list Z)
  : M W (outcome (list Z * Z * option error)) :=
  match fuel with
  | O => ret OutOfFuel
  | S fuel' =>
    s <- get_s ;;
    a <- unix_Read (fd s) p ;;
    let p := fst (fst a) in
    let n := snd (fst a) in
    let err := snd a in
    if is_EINTR err then read_loop fuel' p
    else
      let n := if n <? 0 then 0 else n in
      ret (Returns (p, n, err))
  end.

(** [Read]: the buffer after the call, [n] and [err]. *)
Definition Read (fuel : nat) (p : list Z)
  : M W (outcome (list Z * Z * option error)) :=
  s <- get_s ;;
  let rfds := FdSet_zero in
  let d := fd s in
  match fdset d rfds with
  | None => ret Panics
  | Some rfds =>
    let tv := read_timeval s in
    s <- get_s ;;
    if negb (opened s) then ret (Returns (p, 0, Some ErrNotOpen))
    else if 0 <? ReadTimeout (conf s) then
      r <- select_loop fuel d rfds tv ;;
      match r with
      | OutOfFuel => ret OutOfFuel
      | Panics => ret Panics
      | Returns (rfds, Some e) => ret (Returns (p, 0, Some e))
      | Returns (rfds, None) =>
        match fdisset d rfds with
        | None => ret Panics
        | Some false => ret (Returns (p, 0, Some ErrReadTimeout))
        | Some true =>
          a <- unix_Read d p ;;
          ret (Returns a)
        end
      end
    else read_loop fuel p
  end.

(** [Write]. *)
Definition Write (p : list Z) : M W (Z * option error) :=
  s <- get_s ;;
  if negb (opened s) then ret (0, Some ErrNotOpen)
  else
    a <- unix_Write (fd s) p ;;
    let n := fst a in
    let err := snd a in
    let n := if n <? 0 then 0 else n in
    ret (n, err).

(** [SetParity]. *)
Definition SetParity (parity : string) (stopbits : Z) : M W (option error) :=
  a <- GetTermios ;;
  let t := fst a in
  let err := snd a in
  match err with
  | Some _ => ret err
  | None =>
    let t := Cflag_andnot (Z.lor (Z.lor PARENB PARODD) CMSPAR) t in
    match
      (if String.eqb parity "N" then Some t
       else if String.eqb parity "E" then Some (Cflag_or PARENB t)
       else if String.eqb parity "O" then
         Some (Cflag_or (Z.lor PARENB PARODD) t)
       else if String.eqb parity "S" then
         Some (Cflag_or (Z.lor PARENB CMSPAR) t)
       else if String.eqb parity "M" then
         Some (Cflag_or (Z.lor (Z.lor PARENB PARODD) CMSPAR) t)
       else None)
    with
    | None => ret (Some (Errorf "invalid or not supported parity" []))
    | Some t =>
      let t := Cflag_andnot CSTOPB t in
      match
        (if (stopbits =? 0) || (stopbits =? 1) then Some t
         else if stopbits =? 2 then Some (Cflag_or CSTOPB t)
         else None)
      with
      | None => ret (Some (Errorf "invalid or not supported stop bits" []))
      | Some t =>
        err <- SetTermios t ;;
        match err with
        | Some _ => ret err
        | None =>
          s <- get_s ;;
          set_conf (mkConfig (Name (conf s)) (Baud (conf s))
                      (ReadTimeout (conf s)) parity (StopBits (conf s))
                      (Flow (conf s))) ;;
          s <- get_s ;;
          set_conf (mkConfig (Name (conf s)) (Baud (conf s))
                      (ReadTimeout (conf s)) (Parity (conf s)) stopbits
                      (Flow (conf s))) ;;
          ret None
        end
      end
    end
  end.

(** [Flush]; [TCFLSH] is the constant the function declares. *)
Definition TCFLSH : Z := 0x540B.

Definition Flush : M W (option error) :=
  s <- get_s ;;
  errno <- unix_ioctl (fd s) TCFLSH TCIOFLUSH ;;
  if errno =? 0 then ret None else ret (Some (Errno errno)).

End Driver.

End Linux.

(** ** [serial_darwin.go] *)
Module Darwin.

(** [unix.TCIOFLUSH] on darwin. *)
Definition TCIOFLUSH : Z := 0x3.

(** The open flags and the two exclusive-access requests of
    [golang.org/x/sys/unix] on darwin. *)
Definition O_RDWR : Z := 0x2.
Definition O_NONBLOCK : Z := 0x4.
Definition O_EXCL : Z := 0x800.
Definition O_NOCTTY : Z := 0x20000.
Definition TIOCEXCL : Z := 0x2000740d.
Definition TIOCNXCL : Z := 0x2000740e.

(** [getTermiosFor]: the zero settings, whatever the configuration. *)
Definition getTermiosFor (cfg : Config) : Termios * option error :=
  let t := Termios_zero in
  (t, None).

Section Driver.

Context {W : Type} {os : OS W}.

Local Open Scope go_scope.

(** [SetTermios], [GetTermios] and [SetParity] do nothing. *)
Definition SetTermios (t : Termios) : M W (option error) := ret None.

Definition GetTermios : M W (Termios * option error) :=
  let t := Termios_zero in
  ret (t, None).

Definition SetParity (parity : string) (stopbits : Z) : M W (option error) :=
  ret None.

(** [Flush]. *)
Definition TCFLSH : Z := 0x540B.

Definition Flush : M W (option error) :=
  s <- get_s ;;
  errno <- unix_ioctl (fd s) TCFLSH TCIOFLUSH ;;
  if errno =? 0 then ret None else ret (Some (Errno errno)).

(** The closure deferred by [Open] and by [openPort]. *)
Definition auto_close (d : Z) (err : option error) : M W unit :=
  if negb (d =? 0) && bool_decide (err <> None) then
    _ <- unix_Close d ;;
    set_fd 0 ;;
    set_opened false
  else ret tt.

(** [Close]. *)
Definition Close : M W (option error) :=
  s <- get_s ;;
  if negb (opened s) then ret (Some ErrPortNotInitialized)
  else
    defer (set_fd 0 ;; set_opened false)
      (s <- get_s ;;
       e1 <- unix_ioctl (fd s) TIOCNXCL 0 ;;
       if negb (e1 =? 0) then
         ret (Some (Errorf "failed to release exclusive access - %v"
                      [Errno e1]))
       else
         s <- get_s ;;
         unix_Close (fd s)).

(** [Open]. *)
Definition Open (name : string) : M W (option error) :=
  s <- get_s ;;
  (if opened s then _ <- Close ;; ret tt else ret tt) ;;
  err <- lsof name ;;
  match err with
  | None => ret (Some ErrAlreadyOpen)
  | Some msg =>
    if negb (String.eqb msg "exit status 1") then ret (Some ErrAccessDenied)
    else
      r <- unix_Open name
             (Z.lor (Z.lor (Z.lor O_RDWR O_NOCTTY) O_NONBLOCK) O_EXCL) 0 ;;
      let d := fst r in
      let err := snd r in
      match err with
      | Some _ => ret err
      | None =>
        set_fd d ;;
        set_opened true ;;
        defer (auto_close d err)
          (e1 <- unix_ioctl d TIOCEXCL 0 ;;
           if negb (e1 =? 0) then
             ret (Some (Errorf "failed to get exclusive access - %v"
                          [Errno e1]))
           else ret err)
      end
  end.

(** The handle an [openPort] returns: [nil], or the pointer [s]. *)
Inductive Port : Type := nil_Port | handle.

(** [openPort]. *)
Definition openPort (cfg : Config) : M W (Port * option error) :=
  set_s serialPort_zero ;;
  let t := fst (getTermiosFor cfg) in
  let err := snd (getTermiosFor cfg) in
  match err with
  | Some _ => ret (nil_Port, err)
  | None =>
    err <- Open (Name cfg) ;;
    match err with
    | Some _ => ret (nil_Port, err)
    | None =>
      s <- get_s ;;
      defer (auto_close (fd s) err)
        (err <- SetTermios t ;;
         match err with
         | Some _ => ret (nil_Port, err)
         | None =>
           set_conf cfg ;;
           s <- get_s ;;
           err <- unix_SetNonblock (fd s) false ;;
           match err with
           | Some _ => ret (nil_Port, err)
           | None => ret (handle, err)
           end
         end)
    end
  end.

End Driver.

End Darwin.

(** ** A scripted operating system

    A world that answers from a script: fixed answers for the calls made
    once, and a list of answers each for [select] and [read], consumed
    from the front.  It serves to run the driver on concrete inputs. *)
Record script : Type := mkScript {
  lsof_answer : option string;
  open_answer : Z * Z;
  close_errno : Z;
  ioctl_errno : Z -> Z;
  tcgets_answer : Termios * Z;
  tcsets_errno : Z;
  setnonblock_errno : Z;
  select_answers : list (FdSet * Z);
  read_answers : list (list Z * Z * Z)
}.

#[global] Instance scripted : OS script := {|
  os_lsof _ w := (lsof_answer w, w);
  os_open _ _ _ w := (open_answer w, w);
  os_close _ w := (close_errno w, w);
  os_ioctl _ req _ w := (ioctl_errno w req, w);
  os_tcgets _ _ w := (tcgets_answer w, w);
  os_tcsets _ _ w := (tcsets_errno w, w);
  os_setnonblock _ _ w := (setnonblock_errno w, w);
  os_select _ r tv w :=
    match select_answers w with
    | [] => ((r, tv, 0), w)
    | a :: rest =>
      ((fst a, tv, snd a),
       mkScript (lsof_answer w) (open_answer w) (close_errno w)
         (ioctl_errno w) (tcgets_answer w) (tcsets_errno w)
         (setnonblock_errno w) rest (read_answers w))
    end;
  os_read _ p w :=
    match read_answers w with
    | [] => ((p, 0, 0), w)
    | a :: rest =>
      (a,
       mkScript (lsof_answer w) (open_answer w) (close_errno w)
         (ioctl_errno w) (tcgets_answer w) (tcsets_errno w)
         (setnonblock_errno w) (select_answers w) rest)
    end;
  os_write _ p w := ((Z.of_nat (length p), 0), w)
|}.

(** A device that is free and healthy: [lsof] finds no holder, [open]
    gives descriptor 3 and every other call succeeds. *)
Definition healthy : script :=
  mkScript (Some "exit status 1"%string) (3, 0) 0 (fun _ => 0)
    (mkTermios 0x500 0x5 0xcbd 0x8a3b 0 (replicate 19 0) 0xd 0xd, 0)
    0 0 [] [].

(** A run from a handle [s] in a world [w], with an empty trace. *)
Definition start {W : Type} (s : serialPort) (w : W) : state W :=
  mkState s w [].

(** ** The vocabulary of the statements *)

(** The symbols the translator accepts. *)
Definition valid_parity (p : string) : bool :=
  existsb (String.eqb p) ["N"; "E"; "O"; "S"; "M"; "G"]%string.
Definition valid_stopbits (n : Z) : bool :=
  (n =? 0) || (n =? 1) || (n =? 2).
Definition valid_flow (f : Z) : bool :=
  (f =? FlowNone) || (f =? FlowHardware) || (f =? FlowSoft).

(** The parity bits of the control flags, and the three input flags that
    govern what is done with a parity error. *)
Definition parity_bits (t : Termios) : Z :=
  Z.land (Cflag t) (Z.lor (Z.lor PARENB PARODD) CMSPAR).
Definition parity_input_bits (t : Termios) : Z :=
  Z.land (Iflag t) (Z.lor (Z.lor INPCK PARMRK) IGNPAR).

(** The baud-rate bits of the control flags. *)
Definition baud_bits (t : Termios) : Z := Z.land (Cflag t) CBAUD.

(** The encodings [getTermiosFor] can put into the speed fields: the
    values of the table, and 0 for a rate the table does not have. *)
Definition baud_encodings : list Z :=
  0 :: map snd (map_to_list Linux.baudRates).

(** The rate a configuration resolves to (lines 406 to 414). *)
Definition resolved_baud (b : Z) : Z :=
  if b =? 0 then B19200
  else match Linux.baudRates !! b with
       | Some value => value
       | None => 0
       end.

(** The time a [Timeval] stands for, in nanoseconds. *)
Definition Timeval_nsec (tv : Timeval) : Z :=
  Sec tv * 1000000000 + Usec tv * 1000.

Section Interrupted.

Context {W : Type} {os : OS W}.

(** The operating system answers [EINTR] to [k] reads in a row on
    descriptor [d], starting with buffer [p] in world [w]; the buffer
    and the world after them. *)
Fixpoint interrupted_reads (k : nat) (d : Z) (p : list Z) (w : W)
  : option (list Z * W) :=
  match k with
  | O => Some (p, w)
  | S k' =>
    let r := os_read d p w in
    if snd (fst r) =? EINTR
    then interrupted_reads k' d (fst (fst (fst r))) (snd r)
    else None
  end.

End Interrupted.

(** The parity and stop-bit bits of the control flags. *)
Definition parity_stop_mask : Z :=
  Z.lor (Z.lor (Z.lor PARENB PARODD) CMSPAR) CSTOPB.

(** [t'] is [t] but for the parity and stop-bit bits. *)
Definition differ_in_parity_stop_only (t t' : Termios) : Prop :=
  Iflag t' = Iflag t /\ Oflag t' = Oflag t /\ Lflag t' = Lflag t /\
  Line t' = Line t /\ Cc t' = Cc t /\
  Ispeed t' = Ispeed t /\ Ospeed t' = Ospeed t /\
  Z.ldiff (Cflag t') parity_stop_mask = Z.ldiff (Cflag t) parity_stop_mask.

(** The stored configuration with a new parity and stop-bit value. *)
Definition with_parity_stopbits (parity : string) (stopbits : Z)
    (c : Config) : Config :=
  mkConfig (Name c) (Baud c) (ReadTimeout c) parity stopbits (Flow c).

(** The symbols [SetParity] handles. *)
Definition SetParity_parity (p : string) : bool :=
  existsb (String.eqb p) ["N"; "E"; "O"; "S"; "M"]%string.

(** The two [switch] statements of [SetParity], on the settings they are
    reached with; [None] is the [default] branch. *)
Definition parity_switch (parity : string) (t : Termios) : option Termios :=
  if String.eqb parity "N" then Some t
  else if String.eqb parity "E" then Some (Cflag_or PARENB t)
  else if String.eqb parity "O" then Some (Cflag_or (Z.lor PARENB PARODD) t)
  else if String.eqb parity "S" then Some (Cflag_or (Z.lor PARENB CMSPAR) t)
  else if String.eqb parity "M" then
    Some (Cflag_or (Z.lor (Z.lor PARENB PARODD) CMSPAR) t)
  else None.

Definition stopbits_switch (stopbits : Z) (t : Termios) : option Termios :=
  if (stopbits =? 0) || (stopbits =? 1) then Some t
  else if stopbits =? 2 then Some (Cflag_or CSTOPB t)
  else None.

(** ** Devices and handles to run the driver on *)

(** A healthy device whose [select] and [read] calls answer from the
    two lists. *)
Definition answering (selects : list (FdSet * Z))
    (reads : list (list Z * Z * Z)) : script :=
  mkScript (lsof_answer healthy) (open_answer healthy) (close_errno healthy)
    (ioctl_errno healthy) (tcgets_answer healthy) (tcsets_errno healthy)
    (setnonblock_errno healthy) selects reads.

(** An open handle on descriptor 3 with the given timeout. *)
Definition open_port (timeout : Z) : serialPort :=
  mkPort 3 true (mkConfig "/dev/ttyUSB0" 9600 timeout "N" 1 0).

(** The descriptor set in which the slot of descriptor 3 is set. *)
Definition ready3 : FdSet := mkFdSet (<[0%nat := 8]> (replicate 16 0)).

(** Three devices on which opening fails after the descriptor has been
    acquired: one refuses the exclusive access, one refuses the
    settings, one refuses the switch to blocking mode. *)
Definition refuses_exclusive : script :=
  mkScript (lsof_answer healthy) (open_answer healthy) (close_errno healthy)
    (fun req => if req =? TIOCEXCL then ENOTTY else 0)
    (tcgets_answer healthy) (tcsets_errno healthy)
    (setnonblock_errno healthy) [] [].
Definition refuses_settings : script :=
  mkScript (lsof_answer healthy) (open_answer healthy) (close_errno healthy)
    (ioctl_errno healthy) (tcgets_answer healthy) EIO
    (setnonblock_errno healthy) [] [].
Definition refuses_blocking : script :=
  mkScript (lsof_answer healthy) (open_answer healthy) (close_errno healthy)
    (ioctl_errno healthy) (tcgets_answer healthy) (tcsets_errno healthy)
    EIO [] [].

Definition cfg_8N1 : Config := mkConfig "/dev/ttyUSB0" 9600 0 "N" 1 0.

(** ** Further vocabulary *)

Section InterruptedSelect.

Context {W : Type} {os : OS W}.

(** The operating system answers [EINTR] to [k] calls of [select] in a
    row with [n] as first argument, starting with the descriptor set
    [rfds] and the timeout [tv] in world [w]; the set and the timeout the
    kernel left behind, and the world after them. *)
Fixpoint interrupted_selects (k : nat) (n : Z) (rfds : FdSet)
    (tv : option Timeval) (w : W) : option (FdSet * option Timeval * W) :=
  match k with
  | O => Some (rfds, tv, w)
  | S k' =>
    let r := os_select n rfds tv w in
    if snd (fst r) =? EINTR
    then interrupted_selects k' n (fst (fst (fst r))) (snd (fst (fst r)))
           (snd r)
    else None
  end.

End InterruptedSelect.

(** The offsets of a word of a descriptor set. *)
Definition offsets : list Z := map Z.of_nat (seq 0 64).

(** The parity bits [SetParity] and the translator set for a mode. *)
Definition mode_bits (p : string) : Z :=
  if String.eqb p "N" then 0
  else if String.eqb p "E" then PARENB
  else if String.eqb p "O" then Z.lor PARENB PARODD
  else if String.eqb p "S" then Z.lor PARENB CMSPAR
  else if String.eqb p "M" then Z.lor (Z.lor PARENB PARODD) CMSPAR
  else Z.lor PARENB CMSPAR.

(** A configuration with another device name and read timeout. *)
Definition with_name_timeout (name : string) (timeout : Z) (c : Config)
  : Config :=
  mkConfig name (Baud c) timeout (Parity c) (StopBits c) (Flow c).

(** A configuration with another rate. *)
Definition with_Baud (b : Z) (c : Config) : Config :=
  mkConfig (Name c) b (ReadTimeout c) (Parity c) (StopBits c) (Flow c).

(** The flags [Open] passes to [unix.Open]. *)
Definition open_flags : Z :=
  Z.lor (Z.lor (Z.lor O_RDWR O_NOCTTY) O_NONBLOCK) O_EXCL.

(** [unix.CSIZE], the mask of the character-size bits. *)
Definition CSIZE : Z := 0x30.

(** * Properties *)

(** ** The configuration translator *)

Lemma baudRates_encoding (b v : Z) :
  Linux.baudRates !! b = Some v -> In v baud_encodings.
Proof.
  intros H. right. apply in_map_iff. exists (b, v). split; [reflexivity|].
  apply list_elem_of_In, elem_of_map_to_list, H.
Qed.

Lemma baudRates_zero : Linux.baudRates !! 0 = None.
Proof. vm_compute. reflexivity. Qed.

Lemma resolved_baud_encoding (b : Z) :
  In (if b =? 0 then B19200
      else match Linux.baudRates !! b with
           | Some value => value
           | None => 0
           end) baud_encodings.
Proof.
  destruct (b =? 0).
  - apply (baudRates_encoding 19200). vm_compute. reflexivity.
  - destruct (Linux.baudRates !! b) eqn:E.
    + eapply baudRates_encoding, E.
    + left. reflexivity.
Qed.

(** Case analysis on the boolean validity hypotheses of a configuration. *)
Ltac split_valid :=
  repeat match goal with
    | H : (_ || _) = true |- _ =>
      apply orb_true_iff in H; destruct H as [H|H]
    | H : (_ || _) = false |- _ =>
      apply orb_false_iff in H; destruct H as [? H]
    | H : (_ =? _) = true |- _ => apply Z.eqb_eq in H; subst
    | H : (_ =? _)%string = true |- _ => apply String.eqb_eq in H; subst
    | H : false = true |- _ => discriminate H
    end.

(** Every encoding lies inside the baud-rate mask. *)
Lemma baud_encoding_in_CBAUD (v : Z) :
  In v baud_encodings -> Z.land v CBAUD = v.
Proof.
  assert (H : forallb (fun v => Z.land v CBAUD =? v) baud_encodings = true)
    by (vm_compute; reflexivity).
  rewrite forallb_forall in H. intros Hv. apply Z.eqb_eq, H, Hv.
Qed.

(** So an encoding shares no bit with a mask disjoint from [CBAUD]. *)
Lemma baud_encoding_disjoint (v m : Z) :
  In v baud_encodings -> Z.land CBAUD m = 0 -> Z.land v m = 0.
Proof.
  intros Hv Hm. rewrite <- (baud_encoding_in_CBAUD v Hv).
  rewrite <- Z.land_assoc, Hm. apply Z.land_0_r.
Qed.

(** Clearing and setting bits around a disjoint operand. *)
Lemma ldiff_lor_disjoint (a v m : Z) :
  Z.land v m = 0 -> Z.ldiff (Z.lor a v) m = Z.lor (Z.ldiff a m) v.
Proof.
  intros H. apply Z.bits_inj'. intros n Hn.
  assert (Hb : Z.testbit (Z.land v m) n = false) by (rewrite H; apply Z.bits_0).
  rewrite Z.land_spec in Hb.
  rewrite ?Z.ldiff_spec, ?Z.lor_spec, ?Z.ldiff_spec.
  destruct (Z.testbit a n), (Z.testbit v n), (Z.testbit m n);
    simpl in *; congruence.
Qed.

Lemma lor_swap_r (a v p : Z) : Z.lor (Z.lor a v) p = Z.lor (Z.lor a p) v.
Proof. rewrite <- !Z.lor_assoc. f_equal. apply Z.lor_comm. Qed.

(** The rate or'ed into the control flags moves past the later
    clearings and settings of other bits. *)
Ltac float_baud v Hb :=
  repeat first
    [ rewrite (ldiff_lor_disjoint _ v)
        by (apply (baud_encoding_disjoint v _ Hb); vm_compute; reflexivity)
    | rewrite (lor_swap_r _ v) ].

(** What the translator produces from a configuration it accepts. *)
Lemma getTermiosFor_valid (name : string) (b rt sb fl : Z) (p : string) :
  valid_stopbits sb = true -> valid_flow fl = true ->
  In p ["N"; "E"; "O"; "S"; "M"; "G"]%string ->
  let t := fst (Linux.getTermiosFor (mkConfig name b rt p sb fl)) in
  snd (Linux.getTermiosFor (mkConfig name b rt p sb fl)) = None /\
  Ispeed t = resolved_baud b /\
  Ospeed t = resolved_baud b /\
  baud_bits t = resolved_baud b /\
  parity_bits t =
    (if String.eqb p "N" then 0
     else if String.eqb p "E" then PARENB
     else if String.eqb p "O" then Z.lor PARENB PARODD
     else if String.eqb p "S" then Z.lor PARENB CMSPAR
     else if String.eqb p "M" then Z.lor (Z.lor PARENB PARODD) CMSPAR
     else Z.lor PARENB CMSPAR) /\
  parity_input_bits t =
    (if String.eqb p "G" then Z.lor INPCK PARMRK else IGNPAR).
Proof.
  intros Hs Hf Hp. unfold valid_stopbits, valid_flow in *.
  pose proof (resolved_baud_encoding b) as Hb. fold (resolved_baud b) in Hb.
  unfold Linux.getTermiosFor. cbn [Baud Parity StopBits Flow ReadTimeout].
  fold (resolved_baud b). revert Hb. generalize (resolved_baud b).
  intros v Hb. cbn [In] in Hp.
  repeat (destruct Hp as [<-|Hp]); try contradiction;
    split_valid; destruct (rt =? 0);
    unfold baud_bits, parity_bits, parity_input_bits; cbn;
    float_baud v Hb;
    rewrite !Z.land_lor_distr_l, (baud_encoding_in_CBAUD v Hb),
      (baud_encoding_disjoint v (Z.lor (Z.lor PARENB PARODD) CMSPAR) Hb)
      by reflexivity;
    (split; [reflexivity|]); (split; [reflexivity|]);
    (split; [reflexivity|]);
    (split; [ match goal with
              | |- Z.lor ?k v = v =>
                replace k with 0 by (vm_compute; reflexivity);
                apply Z.lor_0_l
              end |]);
    split; vm_compute; reflexivity.
Qed.

Lemma valid_parity_In (p : string) :
  valid_parity p = true -> In p ["N"; "E"; "O"; "S"; "M"; "G"]%string.
Proof.
  unfold valid_parity. cbn [existsb In]. intros H.
  split_valid; tauto.
Qed.

(** C4: the translator leaves exactly the parity bits of the requested
    mode in the control flags, whatever rate was or'ed in before: none
    for "N", enable for "E", enable and odd for "O", enable and
    space-marking for "S", all three for "M"; for "G" the control bits
    are enable and space-marking, and input parity checking and
    parity-error marking are switched on while the ignore-parity-errors
    input flag, set for every other mode, is cleared.  Any other symbol
    gives the configuration error together with the zero settings. *)
Theorem getTermiosFor_parity (cfg : Config) :
  let t := fst (Linux.getTermiosFor cfg) in
  let err := snd (Linux.getTermiosFor cfg) in
  (valid_parity (Parity cfg) = false ->
   err = Some (Errorf "invalid or not supported parity" []) /\
   t = Termios_zero) /\
  (valid_stopbits (StopBits cfg) = true ->
   valid_flow (Flow cfg) = true ->
   (Parity cfg = "N"%string ->
    err = None /\ parity_bits t = 0 /\ parity_input_bits t = IGNPAR) /\
   (Parity cfg = "E"%string ->
    err = None /\ parity_bits t = PARENB /\ parity_input_bits t = IGNPAR) /\
   (Parity cfg = "O"%string ->
    err = None /\ parity_bits t = Z.lor PARENB PARODD /\
    parity_input_bits t = IGNPAR) /\
   (Parity cfg = "S"%string ->
    err = None /\ parity_bits t = Z.lor PARENB CMSPAR /\
    parity_input_bits t = IGNPAR) /\
   (Parity cfg = "M"%string ->
    err = None /\ parity_bits t = Z.lor (Z.lor PARENB PARODD) CMSPAR /\
    parity_input_bits t = IGNPAR) /\
   (Parity cfg = "G"%string ->
    err = None /\ parity_bits t = Z.lor PARENB CMSPAR /\
    parity_input_bits t = Z.lor INPCK PARMRK)).
Proof.
  destruct cfg as [name b rt p sb fl]. cbn [Parity StopBits Flow]. split.
  - intros Hp. unfold valid_parity in Hp. cbn [existsb] in Hp.
    split_valid. unfold Linux.getTermiosFor. cbn [Parity].
    repeat match goal with
           | H : (_ =? _)%string = false |- _ => rewrite H; clear H
           end.
    split; reflexivity.
  - intros Hs Hf.
    repeat apply conj; intros ->;
      match goal with
      | |- context [mkConfig _ _ _ ?q _ _] =>
        assert (Hq : In q ["N"; "E"; "O"; "S"; "M"; "G"]%string)
          by (cbn [In]; tauto);
        destruct (getTermiosFor_valid name b rt sb fl q Hs Hf Hq)
          as (He & _ & _ & _ & Hc & Hi)
      end;
      (split; [exact He|]); (split; [exact Hc | exact Hi]).
Qed.

Lemma getTermiosFor_parity_witness :
  let t := fst (Linux.getTermiosFor (mkConfig "/dev/ttyS0" 9600 0 "G" 1 0)) in
  parity_bits t = Z.lor PARENB CMSPAR /\
  parity_input_bits t = Z.lor INPCK PARMRK.
Proof.
  destruct (getTermiosFor_parity (mkConfig "/dev/ttyS0" 9600 0 "G" 1 0))
    as [_ H].
  destruct (H eq_refl eq_refl) as (_ & _ & _ & _ & _ & HG).
  destruct (HG eq_refl) as (_ & Hc & Hi). split; [exact Hc | exact Hi].
Defined.

(** C5: for a configuration the translator accepts, no error is raised
    whatever the rate; a requested rate of zero gives the encoding of
    19200 baud; a rate of the table gives the table's encoding; a nonzero
    rate the table does not have leaves the two speed fields and the
    baud-rate bits of the control flags at zero. *)
Theorem getTermiosFor_baud (cfg : Config) :
  valid_parity (Parity cfg) = true ->
  valid_stopbits (StopBits cfg) = true ->
  valid_flow (Flow cfg) = true ->
  let t := fst (Linux.getTermiosFor cfg) in
  snd (Linux.getTermiosFor cfg) = None /\
  (Baud cfg = 0 ->
   Ispeed t = B19200 /\ Ospeed t = B19200 /\ baud_bits t = B19200) /\
  (forall v : Z, Linux.baudRates !! Baud cfg = Some v ->
   Ispeed t = v /\ Ospeed t = v /\ baud_bits t = v) /\
  (Baud cfg <> 0 -> Linux.baudRates !! Baud cfg = None ->
   Ispeed t = 0 /\ Ospeed t = 0 /\ baud_bits t = 0).
Proof.
  destruct cfg as [name b rt p sb fl]. cbn [Baud Parity StopBits Flow].
  intros Hp Hs Hf.
  destruct (getTermiosFor_valid name b rt sb fl p Hs Hf (valid_parity_In p Hp))
    as (He & Hi & Ho & Hb & _).
  cbv zeta. rewrite Hi, Ho, Hb. unfold resolved_baud.
  split; [exact He|]. split; [|split].
  - intros ->. cbn. auto.
  - intros v Hv. destruct (Z.eqb_spec b 0) as [->|_].
    + rewrite baudRates_zero in Hv. discriminate.
    + rewrite Hv. auto.
  - intros Hb0 Hn. destruct (Z.eqb_spec b 0); [contradiction|].
    rewrite Hn. auto.
Qed.

Lemma getTermiosFor_baud_witness :
  let t := fst (Linux.getTermiosFor (mkConfig "/dev/ttyS0" 12345 0 "N" 1 0)) in
  snd (Linux.getTermiosFor (mkConfig "/dev/ttyS0" 12345 0 "N" 1 0)) = None /\
  Ispeed t = 0 /\ Ospeed t = 0 /\ baud_bits t = 0.
Proof.
  destruct (getTermiosFor_baud (mkConfig "/dev/ttyS0" 12345 0 "N" 1 0)
              eq_refl eq_refl eq_refl) as (He & _ & _ & H).
  split; [exact He|]. apply H.
  - cbn. lia.
  - vm_compute. reflexivity.
Defined.

(** ** The timeout of [Read] *)

Lemma wrap64_small (z : Z) : - 2 ^ 63 <= z < 2 ^ 63 -> wrap64 z = z.
Proof.
  intros H. unfold wrap64.
  rewrite Z.mod_small by lia. lia.
Qed.

(** [NsecToTimeval] on a whole number of microseconds that does not
    overflow is exact. *)
Lemma NsecToTimeval_microseconds (k : Z) :
  0 <= k -> k * 1000 + 999 < 2 ^ 63 ->
  Timeval_nsec (NsecToTimeval (k * 1000)) = k * 1000 /\
  0 <= Usec (NsecToTimeval (k * 1000)) < 1000000.
Proof.
  intros Hk Hmax. unfold NsecToTimeval.
  rewrite (wrap64_small (k * 1000 + 999)) by lia.
  rewrite Z.rem_mod_nonneg, !Z.quot_div_nonneg by
    (try apply Z.mod_pos_bound; lia).
  pose proof (Z.div_mod (k * 1000 + 999) 1000000000 ltac:(lia)) as Hq.
  pose proof (Z.mod_pos_bound (k * 1000 + 999) 1000000000 ltac:(lia)) as Hr.
  set (q := (k * 1000 + 999) / 1000000000) in *.
  set (r := (k * 1000 + 999) mod 1000000000) in *.
  pose proof (Z.div_mod r 1000 ltac:(lia)) as Hu.
  pose proof (Z.mod_pos_bound r 1000 ltac:(lia)) as Hr2.
  set (u := r / 1000) in *. set (r2 := r mod 1000) in *.
  assert (Hu0 : 0 <= u) by (subst u; apply Z.div_pos; lia).
  destruct (Z.ltb_spec u 0) as [Hneg|_]; [lia|].
  unfold Timeval_nsec. cbn [Sec Usec]. split; lia.
Qed.

Section ReadTimeout.

Context {W : Type} {os : OS W}.

(** The trace only grows, at its front. *)
Lemma sys_trace {A : Type} (c : syscall) (f : W -> A * W) (st : state W) :
  trace (snd (sys c f st)) = c :: trace st /\
  port (snd (sys c f st)) = port st.
Proof. unfold sys. destruct (f (world st)). split; reflexivity. Qed.

Lemma unixSelect_run (n : Z) (r : FdSet) (tv : option Timeval) (st : state W) :
  Linux.unixSelect n r tv st =
  (fst (fst (fst (os_select n r tv (world st)))),
   snd (fst (fst (os_select n r tv (world st)))),
   errnoErr (snd (fst (os_select n r tv (world st)))),
   mkState (port st) (snd (os_select n r tv (world st)))
     (SysSelect n r tv :: trace st)).
Proof.
  unfold Linux.unixSelect, bind, ret, sys.
  destruct (os_select n r tv (world st)) as [[[r' tv'] e] w']. reflexivity.
Qed.

Lemma unix_Read_run (d : Z) (p : list Z) (st : state W) :
  unix_Read d p st =
  (fst (fst (fst (os_read d p (world st)))),
   snd (fst (fst (os_read d p (world st)))),
   errnoErr (snd (fst (os_read d p (world st)))),
   mkState (port st) (snd (os_read d p (world st)))
     (SysRead d p :: trace st)).
Proof.
  unfold unix_Read, bind, ret, sys.
  destruct (os_read d p (world st)) as [[[p' n] e] w']. reflexivity.
Qed.

(** One iteration of the first loop of [Read]. *)
Lemma select_loop_S (fuel : nat) (d : Z) (rfds : FdSet)
    (tv : option Timeval) (st : state W) :
  Linux.select_loop (S fuel) d rfds tv st =
  let r := os_select (wrap64 (d + 1)) rfds tv (world st) in
  let st1 := mkState (port st) (snd r)
               (SysSelect (wrap64 (d + 1)) rfds tv :: trace st) in
  match errnoErr (snd (fst r)) with
  | None => (Returns (fst (fst (fst r)), None), st1)
  | Some e =>
    if negb (is_EINTR (Some e)) then
      (Returns (fst (fst (fst r)),
                Some (Errorf "serial: could not select: %v" [e])), st1)
    else Linux.select_loop fuel d (fst (fst (fst r))) (snd (fst (fst r))) st1
  end.
Proof.
  cbn [Linux.select_loop]. unfold bind. rewrite unixSelect_run.
  cbn [fst snd]. destruct (errnoErr _); [destruct (negb _)|]; reflexivity.
Qed.

Lemma select_loop_trace (fuel : nat) (d : Z) :
  forall (rfds : FdSet) (tv : option Timeval) (st : state W),
  exists new,
    trace (snd (Linux.select_loop fuel d rfds tv st)) = new ++ trace st /\
    port (snd (Linux.select_loop fuel d rfds tv st)) = port st.
Proof.
  induction fuel as [|fuel IH]; intros rfds tv st.
  - exists []. split; reflexivity.
  - rewrite select_loop_S. cbv zeta.
    destruct (errnoErr _) as [e|].
    + destruct (negb _).
      * exists [SysSelect (wrap64 (d + 1)) rfds tv]. split; reflexivity.
      * match goal with
        | |- context [Linux.select_loop fuel d ?r ?t ?s] =>
          destruct (IH r t s) as (new & Hn & Hp)
        end.
        exists (new ++ [SysSelect (wrap64 (d + 1)) rfds tv]).
        rewrite Hn, Hp. cbn [trace port]. rewrite <- app_assoc.
        split; reflexivity.
    + exists [SysSelect (wrap64 (d + 1)) rfds tv]. split; reflexivity.
Qed.

(** With fuel for one iteration, the first call of the loop is the
    [select] on the arguments the loop was entered with. *)
Lemma select_loop_first (fuel : nat) (d : Z) (rfds : FdSet)
    (tv : option Timeval) (st : state W) :
  exists new,
    trace (snd (Linux.select_loop (S fuel) d rfds tv st)) =
    new ++ SysSelect (wrap64 (d + 1)) rfds tv :: trace st.
Proof.
  rewrite select_loop_S. cbv zeta.
  destruct (errnoErr _) as [e|].
  - destruct (negb _).
    + exists []. reflexivity.
    + match goal with
      | |- context [Linux.select_loop fuel d ?r ?t ?s] =>
        destruct (select_loop_trace fuel d r t s) as (new & Hn & _)
      end.
      exists new. rewrite Hn. reflexivity.
  - exists []. reflexivity.
Qed.

(** A descriptor that is not negative has a slot in the set. *)
Lemma fdset_nonneg (d : Z) :
  0 <= d ->
  exists rfds, fdset d FdSet_zero = Some rfds /\
               length (Bits rfds) = 16%nat.
Proof.
  intros Hd. unfold fdset, fdget. cbn [FdSet_zero Bits].
  change (Z.of_nat (length (replicate 16 0))) with 16.
  change (FD_SETSIZE ÷ 16) with 64.
  assert (0 <= Z.rem (d ÷ 64) 16 < 16).
  { apply Z.rem_bound_pos; [|lia]. apply Z.quot_pos; lia. }
  destruct (Z.leb_spec 0 (Z.rem (d ÷ 64) 16)); [|lia].
  destruct (Z.ltb_spec (Z.rem (d ÷ 64) 16) 16); [|lia].
  cbn [andb]. eexists. split; [reflexivity|].
  cbn [Bits]. rewrite length_insert. reflexivity.
Qed.

(** [Read] on an open handle with a positive timeout, once the slot of
    the descriptor is set. *)
Lemma Read_timeout_path (fuel : nat) (p : list Z) (s : serialPort) (w : W)
    (tr : list syscall) (rfds : FdSet) :
  opened s = true -> 0 < ReadTimeout (conf s) ->
  fdset (fd s) FdSet_zero = Some rfds ->
  Linux.Read fuel p (mkState s w tr) =
  let r := Linux.select_loop fuel (fd s) rfds (Linux.read_timeval s)
             (mkState s w tr) in
  match fst r with
  | OutOfFuel => (OutOfFuel, snd r)
  | Panics => (Panics, snd r)
  | Returns (_, Some e) => (Returns (p, 0, Some e), snd r)
  | Returns (rfds', None) =>
    match fdisset (fd s) rfds' with
    | None => (Panics, snd r)
    | Some false => (Returns (p, 0, Some ErrReadTimeout), snd r)
    | Some true =>
      (Returns (fst (unix_Read (fd s) p (snd r))),
       snd (unix_Read (fd s) p (snd r)))
    end
  end.
Proof.
  intros Ho Ht Hset. unfold Linux.Read, bind, get_s, ret. cbn [port].
  rewrite Hset. cbn [port]. rewrite Ho. cbn [negb].
  destruct (Z.ltb_spec 0 (ReadTimeout (conf s))) as [_|]; [|lia].
  cbv zeta.
  destruct (Linux.select_loop fuel (fd s) rfds (Linux.read_timeval s)
              (mkState s w tr)) as [[[rfds' [e|]]| |] st1]; cbn [fst snd];
    try reflexivity.
  destruct (fdisset (fd s) rfds') as [[|]|]; try reflexivity.
  destruct (unix_Read (fd s) p st1). reflexivity.
Qed.

(** C3, as the code has it: the configured duration is multiplied by
    [time.Millisecond] before it is converted, so the [Timeval] that
    [Read] builds, and passes to its first [select], stands for
    [ReadTimeout] times 1,000,000 nanoseconds (the range of the
    hypothesis keeps the multiplication from overflowing). *)
Theorem Read_timeval_milliseconds (s : serialPort) (w : W) (p : list Z)
    (fuel : nat) :
  0 < ReadTimeout (conf s) -> ReadTimeout (conf s) <= 9223372036854 ->
  opened s = true -> 0 <= fd s ->
  exists (tv : Timeval) (rfds : FdSet) (later : list syscall),
    Linux.read_timeval s = Some tv /\
    Timeval_nsec tv = ReadTimeout (conf s) * 1000000 /\
    0 <= Usec tv < 1000000 /\
    trace (snd (Linux.Read (S fuel) p (start s w))) =
    later ++ [SysSelect (wrap64 (fd s + 1)) rfds (Some tv)].
Proof.
  intros Hpos Hmax Ho Hfd.
  destruct (fdset_nonneg (fd s) Hfd) as (rfds & Hset & _).
  assert (Htv : Linux.read_timeval s =
                Some (NsecToTimeval (ReadTimeout (conf s) * 1000 * 1000))).
  { unfold Linux.read_timeval, Millisecond.
    destruct (Z.ltb_spec 0 (ReadTimeout (conf s))) as [_|]; [|lia].
    rewrite wrap64_small by lia. do 2 f_equal. lia. }
  destruct (NsecToTimeval_microseconds (ReadTimeout (conf s) * 1000))
    as [Hn Hu]; [lia | lia |].
  exists (NsecToTimeval (ReadTimeout (conf s) * 1000 * 1000)), rfds.
  unfold start. rewrite (Read_timeout_path _ _ _ _ _ rfds Ho Hpos Hset).
  cbv zeta. rewrite Htv.
  destruct (select_loop_first fuel (fd s) rfds
              (Some (NsecToTimeval (ReadTimeout (conf s) * 1000 * 1000)))
              (mkState s w [])) as (new & Hnew).
  cbn [trace] in Hnew.
  destruct (Linux.select_loop (S fuel) _ _ _ _)
    as [[[rfds' [e|]]| |] st1]; cbn [fst snd] in *;
    try (exists new; repeat split; try assumption; lia).
  destruct (fdisset (fd s) rfds') as [[|]|];
    try (exists new; repeat split; try assumption; lia).
  rewrite unix_Read_run. cbn [snd trace]. rewrite Hnew.
  exists (SysRead (fd s) p :: new). repeat split; try assumption; lia.
Qed.

End ReadTimeout.

Lemma Read_timeval_milliseconds_witness :
  exists (tv : Timeval) (rfds : FdSet) (later : list syscall),
    Linux.read_timeval
      (mkPort 3 true (mkConfig "/dev/ttyUSB0" 9600 200 "N" 1 0)) = Some tv /\
    Timeval_nsec tv = 200 * 1000000 /\
    0 <= Usec tv < 1000000 /\
    trace (snd (Linux.Read 1 [0; 0]
                  (start (mkPort 3 true
                            (mkConfig "/dev/ttyUSB0" 9600 200 "N" 1 0))
                     healthy))) =
    later ++ [SysSelect (wrap64 (3 + 1)) rfds (Some tv)].
Proof.
  apply (Read_timeval_milliseconds
           (mkPort 3 true (mkConfig "/dev/ttyUSB0" 9600 200 "N" 1 0))
           healthy [0; 0] 0); cbn; solve [reflexivity | lia | discriminate].
Defined.

(** C3, as stated, fails: with a configured timeout of 1000 nanoseconds
    [Read] hands [select] a [Timeval] of one second. *)
Lemma Read_timeval_not_nanoseconds :
  Linux.read_timeval
    (mkPort 3 true (mkConfig "/dev/ttyUSB0" 9600 1000 "N" 1 0)) =
  Some (mkTimeval 1 0) /\
  Timeval_nsec (mkTimeval 1 0) <> 1000 /\
  rev (trace (snd (Linux.Read 1 [0; 0]
                     (start (mkPort 3 true
                               (mkConfig "/dev/ttyUSB0" 9600 1000 "N" 1 0))
                        healthy)))) =
  [SysSelect 4 (mkFdSet (<[0%nat := 8]> (replicate 16 0)))
     (Some (mkTimeval 1 0));
   SysRead 3 [0; 0]].
Proof.
  split; [vm_compute; reflexivity|].
  split; [vm_compute; discriminate|].
  vm_compute. reflexivity.
Qed.

(** ** [Read] without a timeout *)

Section ReadLoop.

Context {W : Type} {os : OS W}.

(** One iteration of the second loop of [Read]. *)
Lemma read_loop_S (fuel : nat) (p : list Z) (st : state W) :
  Linux.read_loop (S fuel) p st =
  let r := os_read (fd (port st)) p (world st) in
  let st1 := mkState (port st) (snd r)
               (SysRead (fd (port st)) p :: trace st) in
  if is_EINTR (errnoErr (snd (fst r))) then
    Linux.read_loop fuel (fst (fst (fst r))) st1
  else
    (Returns (fst (fst (fst r)),
              (if snd (fst (fst r)) <? 0 then 0 else snd (fst (fst r))),
              errnoErr (snd (fst r))), st1).
Proof.
  cbn [Linux.read_loop]. unfold bind, get_s. rewrite unix_Read_run.
  cbn [fst snd]. destruct (is_EINTR _); reflexivity.
Qed.

Lemma is_EINTR_errnoErr (e : Z) : is_EINTR (errnoErr e) = (e =? EINTR).
Proof.
  unfold errnoErr. destruct (Z.eqb_spec e 0) as [->|]; reflexivity.
Qed.

(** After [k] interrupted reads and one that is not, the loop returns
    the answer of the last, with a negative length replaced by 0, and
    has made these [k + 1] reads and no other call. *)
Lemma read_loop_interrupted (k : nat) :
  forall (fuel : nat) (s : serialPort) (p : list Z) (w : W)
         (tr : list syscall) (pk : list Z) (wk : W) (p' : list Z)
         (n e : Z) (w' : W),
  interrupted_reads k (fd s) p w = Some (pk, wk) ->
  os_read (fd s) pk wk = (p', n, e, w') ->
  e <> EINTR -> (k < fuel)%nat ->
  exists reads,
    Linux.read_loop fuel p (mkState s w tr) =
    (Returns (p', Z.max n 0, errnoErr e),
     mkState s w' (SysRead (fd s) pk :: reads ++ tr)) /\
    length reads = k /\
    Forall (fun c => exists q, c = SysRead (fd s) q) reads.
Proof.
  induction k as [|k IH]; intros fuel s p w tr pk wk p' n e w' Hk Hr He Hf.
  - cbn in Hk. injection Hk as <- <-.
    destruct fuel as [|fuel]; [lia|].
    rewrite read_loop_S. cbn [port world trace]. rewrite Hr. cbn [fst snd].
    rewrite is_EINTR_errnoErr.
    destruct (Z.eqb_spec e EINTR); [contradiction|].
    exists []. split; [|split; [reflexivity|constructor]].
    replace (if n <? 0 then 0 else n) with (Z.max n 0)
      by (destruct (Z.ltb_spec n 0); lia).
    reflexivity.
  - cbn [interrupted_reads] in Hk. cbv zeta in Hk.
    destruct fuel as [|fuel]; [lia|].
    rewrite read_loop_S. cbn [port world trace]. cbv zeta.
    rewrite is_EINTR_errnoErr.
    destruct (snd (fst (os_read (fd s) p w)) =? EINTR); [|discriminate].
    destruct (IH fuel s _ _ (SysRead (fd s) p :: tr) pk wk p' n e w'
                Hk Hr He ltac:(lia)) as (reads & Hrun & Hlen & Hall).
    exists (reads ++ [SysRead (fd s) p]). rewrite Hrun.
    rewrite <- app_assoc. split; [reflexivity|]. split.
    + rewrite length_app. cbn. lia.
    + apply Forall_app. split; [exact Hall|].
      constructor; [eexists; reflexivity|constructor].
Qed.

(** The errors the two loops can hand back. *)
Lemma read_loop_error (fuel : nat) :
  forall (p : list Z) (st : state W) (p' : list Z) (n : Z)
         (err : option error) (st' : state W),
  Linux.read_loop fuel p st = (Returns (p', n, err), st') ->
  exists e, err = errnoErr e.
Proof.
  induction fuel as [|fuel IH]; intros p st p' n err st' H.
  - discriminate H.
  - rewrite read_loop_S in H. cbv zeta in H.
    destruct (is_EINTR _).
    + eapply IH, H.
    + injection H as _ _ <- _. eexists. reflexivity.
Qed.

Lemma select_loop_error (fuel : nat) (d : Z) :
  forall (rfds : FdSet) (tv : option Timeval) (st : state W)
         (rfds' : FdSet) (e : error) (st' : state W),
  Linux.select_loop fuel d rfds tv st = (Returns (rfds', Some e), st') ->
  exists e0, e = Errorf "serial: could not select: %v" [e0].
Proof.
  induction fuel as [|fuel IH]; intros rfds tv st rfds' e st' H.
  - discriminate H.
  - rewrite select_loop_S in H. cbv zeta in H.
    destruct (errnoErr _) as [e0|]; [|discriminate H].
    destruct (negb _).
    + injection H as _ <- _. eexists. reflexivity.
    + eapply IH, H.
Qed.

(** Every error [Read] returns is [ErrNotOpen], [ErrReadTimeout], an
    errno of [read], or the wrapped errno of [select]. *)
Lemma Read_error (fuel : nat) (p : list Z) (st : state W) (p' : list Z)
    (n : Z) (err : option error) (st' : state W) :
  Linux.Read fuel p st = (Returns (p', n, err), st') ->
  err = Some ErrNotOpen \/ err = Some ErrReadTimeout \/
  (exists e, err = errnoErr e) \/
  (exists e0, err = Some (Errorf "serial: could not select: %v" [e0])).
Proof.
  unfold Linux.Read, bind, get_s, ret.
  destruct (fdset _ _) as [rfds|]; [|discriminate].
  destruct (negb _).
  { intros H. injection H as _ _ <- _. left. reflexivity. }
  destruct (0 <? _).
  - destruct (Linux.select_loop _ _ _ _ _) as [[[rfds' [e|]]| |] st1] eqn:E;
      try discriminate.
    + intros H. injection H as _ _ <- _.
      destruct (select_loop_error _ _ _ _ _ _ _ _ E) as [e0 ->].
      right; right; right. eexists. reflexivity.
    + destruct (fdisset _ _) as [[|]|]; try discriminate.
      * rewrite unix_Read_run. intros H. injection H as _ _ <- _.
        right; right; left. eexists. reflexivity.
      * intros H. injection H as _ _ <- _. right; left. reflexivity.
  - intros H. destruct (read_loop_error _ _ _ _ _ _ _ H) as [e ->].
    right; right; left. eexists. reflexivity.
Qed.

(** [Read] on an open handle without a timeout is its second loop. *)
Lemma Read_untimed_is_read_loop (fuel : nat) (p : list Z) (s : serialPort)
    (w : W) (tr : list syscall) :
  opened s = true -> ReadTimeout (conf s) <= 0 -> 0 <= fd s ->
  Linux.Read fuel p (mkState s w tr) =
  Linux.read_loop fuel p (mkState s w tr).
Proof.
  intros Ho Ht Hfd. destruct (fdset_nonneg (fd s) Hfd) as (rfds & Hset & _).
  unfold Linux.Read, bind, get_s, ret. cbn [port].
  rewrite Hset. cbn [port]. rewrite Ho. cbn [negb].
  destruct (Z.ltb_spec 0 (ReadTimeout (conf s))); [lia|]. reflexivity.
Qed.

(** C9: on an open handle without a timeout, [Read] repeats the read
    call exactly as long as it is interrupted and returns the first
    other answer, with a negative length replaced by 0; an answer of
    length 0 without an error is returned as (0, nil); and no [Read],
    on any handle, returns [ErrPortClosed]. *)
Theorem Read_no_timeout (s : serialPort) :
  opened s = true -> ReadTimeout (conf s) <= 0 -> 0 <= fd s ->
  (forall (k fuel : nat) (p : list Z) (w : W) (pk : list Z) (wk : W)
          (p' : list Z) (n e : Z) (w' : W),
     interrupted_reads k (fd s) p w = Some (pk, wk) ->
     os_read (fd s) pk wk = (p', n, e, w') ->
     e <> EINTR -> (k < fuel)%nat ->
     exists reads,
       Linux.Read fuel p (start s w) =
       (Returns (p', Z.max n 0, errnoErr e),
        mkState s w' (SysRead (fd s) pk :: reads)) /\
       length reads = k /\
       Forall (fun c => exists q, c = SysRead (fd s) q) reads) /\
  (forall (fuel : nat) (p : list Z) (w : W) (p' : list Z) (w' : W),
     os_read (fd s) p w = (p', 0, 0, w') ->
     Linux.Read (S fuel) p (start s w) =
     (Returns (p', 0, None), mkState s w' [SysRead (fd s) p])) /\
  (forall (fuel : nat) (p : list Z) (st : state W) (p' : list Z) (n : Z)
          (err : option error) (st' : state W),
     Linux.Read fuel p st = (Returns (p', n, err), st') ->
     err <> Some ErrPortClosed).
Proof.
  intros Ho Ht Hfd. split; [|split].
  - intros k fuel p w pk wk p' n e w' Hk Hr He Hf.
    unfold start. rewrite (Read_untimed_is_read_loop _ _ _ _ _ Ho Ht Hfd).
    destruct (read_loop_interrupted k fuel s p w [] pk wk p' n e w'
                Hk Hr He Hf) as (reads & Hrun & Hlen & Hall).
    exists reads. rewrite app_nil_r in Hrun. auto.
  - intros fuel p w p' w' Hr.
    unfold start. rewrite (Read_untimed_is_read_loop _ _ _ _ _ Ho Ht Hfd).
    destruct (read_loop_interrupted 0 (S fuel) s p w [] p w p' 0 0 w'
                eq_refl Hr ltac:(discriminate) ltac:(lia))
      as (reads & Hrun & Hlen & _).
    destruct reads; [|discriminate Hlen]. exact Hrun.
  - intros fuel p st p' n err st' H.
    destruct (Read_error _ _ _ _ _ _ _ H)
      as [->|[->|[[e ->]|[e0 ->]]]]; try discriminate.
    unfold errnoErr. destruct (e =? 0); discriminate.
Qed.

End ReadLoop.

Lemma Read_no_timeout_witness :
  exists reads,
    Linux.Read 3 [0; 0]
      (start (open_port 0)
         (answering [] [([0; 0], -1, EINTR); ([0; 0], -1, EINTR);
                        ([65; 84], 2, 0)])) =
    (Returns ([65; 84], Z.max 2 0, errnoErr 0),
     mkState (open_port 0) (answering [] [])
       (SysRead (fd (open_port 0)) [0; 0] :: reads)) /\
    length reads = 2%nat /\
    Forall (fun c => exists q, c = SysRead (fd (open_port 0)) q) reads.
Proof.
  refine (proj1 (Read_no_timeout (open_port 0) eq_refl _ _)
            2%nat 3%nat [0; 0]
            (answering [] [([0; 0], -1, EINTR); ([0; 0], -1, EINTR);
                           ([65; 84], 2, 0)])
            [0; 0] (answering [] [([65; 84], 2, 0)])
            [65; 84] 2 0 (answering [] []) eq_refl eq_refl _ _).
  - cbn. lia.
  - cbn. lia.
  - discriminate.
  - lia.
Defined.

(** ** [Read] with a timeout *)

(** C2, the failing input: the handle is open with a timeout of 200,
    [select] reports descriptor 3 readable, and the one [read] fails with
    [EIO] and length -1.  [Read] returns the length -1 as it is; the
    same answer without a timeout is returned with length 0. *)
Theorem Read_timeout_negative_length :
  Linux.Read 1 [0; 0]
    (start (open_port 200) (answering [(ready3, 0)] [([0; 0], -1, EIO)])) =
  (Returns ([0; 0], -1, Some (Errno EIO)),
   mkState (open_port 200) (answering [] [])
     [SysRead 3 [0; 0];
      SysSelect 4 ready3 (Some (mkTimeval 0 200000))]) /\
  Linux.Read 1 [0; 0]
    (start (open_port 0) (answering [] [([0; 0], -1, EIO)])) =
  (Returns ([0; 0], 0, Some (Errno EIO)),
   mkState (open_port 0) (answering [] []) [SysRead 3 [0; 0]]).
Proof. split; vm_compute; reflexivity. Qed.

(** ** The lifecycle: [Close], [Open] and [openPort] *)

Section Lifecycle.

Context {W : Type} {os : OS W}.

Lemma unix_ioctl_run (d req arg : Z) (st : state W) :
  unix_ioctl d req arg st =
  (fst (os_ioctl d req arg (world st)),
   mkState (port st) (snd (os_ioctl d req arg (world st)))
     (SysIoctl d req arg :: trace st)).
Proof.
  unfold unix_ioctl, sys. destruct (os_ioctl d req arg (world st)).
  reflexivity.
Qed.

Lemma unix_Close_run (d : Z) (st : state W) :
  unix_Close d st =
  (errnoErr (fst (os_close d (world st))),
   mkState (port st) (snd (os_close d (world st)))
     (SysClose d :: trace st)).
Proof.
  unfold unix_Close, bind, ret, sys. destruct (os_close d (world st)).
  reflexivity.
Qed.

(** [Close] on an open handle, by the answer to the release of the
    exclusive access. *)
Lemma Close_open (st : state W) :
  opened (port st) = true ->
  Linux.Close st =
  let d := fd (port st) in
  let r1 := os_ioctl d TIOCNXCL 0 (world st) in
  if negb (fst r1 =? 0) then
    (Some (Errorf "failed to release exclusive access - %v" [Errno (fst r1)]),
     mkState (mkPort 0 false (conf (port st))) (snd r1)
       (SysIoctl d TIOCNXCL 0 :: trace st))
  else
    let r2 := os_close d (snd r1) in
    (errnoErr (fst r2),
     mkState (mkPort 0 false (conf (port st))) (snd r2)
       (SysClose d :: SysIoctl d TIOCNXCL 0 :: trace st)).
Proof.
  intros Ho. unfold Linux.Close, defer, bind, get_s, ret, set_fd, set_opened,
    set_s, get_s, bind.
  rewrite Ho. cbn [negb]. rewrite unix_ioctl_run. cbn [fst snd port].
  destruct (negb _).
  - reflexivity.
  - rewrite unix_Close_run. reflexivity.
Qed.

(** C6: [Close] on a handle that is not open returns
    [ErrPortNotInitialized], makes no call and leaves the handle as it
    was; on an open handle it always ends with [opened = false] and
    [fd = 0]: when the release of the exclusive access fails it returns
    the wrapped errno, and otherwise the result of closing the
    descriptor. *)
Theorem Close_spec (st : state W) :
  (opened (port st) = false ->
   Linux.Close st = (Some ErrPortNotInitialized, st)) /\
  (opened (port st) = true ->
   opened (port (snd (Linux.Close st))) = false /\
   fd (port (snd (Linux.Close st))) = 0 /\
   conf (port (snd (Linux.Close st))) = conf (port st) /\
   (forall (e1 : Z) (w1 : W),
      os_ioctl (fd (port st)) TIOCNXCL 0 (world st) = (e1, w1) ->
      e1 <> 0 ->
      Linux.Close st =
      (Some (Errorf "failed to release exclusive access - %v" [Errno e1]),
       mkState (mkPort 0 false (conf (port st))) w1
         (SysIoctl (fd (port st)) TIOCNXCL 0 :: trace st))) /\
   (forall (w1 : W) (e2 : Z) (w2 : W),
      os_ioctl (fd (port st)) TIOCNXCL 0 (world st) = (0, w1) ->
      os_close (fd (port st)) w1 = (e2, w2) ->
      Linux.Close st =
      (errnoErr e2,
       mkState (mkPort 0 false (conf (port st))) w2
         (SysClose (fd (port st)) ::
          SysIoctl (fd (port st)) TIOCNXCL 0 :: trace st)))).
Proof.
  split.
  - intros Hc. unfold Linux.Close, bind, get_s, ret. rewrite Hc. reflexivity.
  - intros Ho. rewrite (Close_open st Ho). cbv zeta.
    repeat apply conj.
    + destruct (negb _); reflexivity.
    + destruct (negb _); reflexivity.
    + destruct (negb _); reflexivity.
    + intros e1 w1 H1 He. rewrite H1. cbn [fst snd].
      destruct (Z.eqb_spec e1 0); [contradiction|]. reflexivity.
    + intros w1 e2 w2 H1 H2. rewrite H1. cbn [fst snd negb Z.eqb].
      rewrite H2. reflexivity.
Qed.

(** The deferred closure does nothing when the error it was given at
    the [defer] statement is [nil]. *)
Lemma auto_close_nil (d : Z) (st : state W) :
  Linux.auto_close d None st = (tt, st).
Proof.
  unfold Linux.auto_close. rewrite andb_comm.
  destruct (bool_decide_reflect (@None error <> None)) as [H|_];
    [contradiction H; reflexivity|].
  reflexivity.
Qed.

(** [Open] on a handle that is not open, when the device is free, the
    descriptor is acquired and the request for exclusive access fails:
    the wrapped errno is returned, no [close] is made, and the handle is
    left open on the descriptor. *)
Lemma Open_exclusive_failure (name : string) (s : serialPort) (w w1 w2 w3 : W)
    (d e1 : Z) :
  opened s = false ->
  os_lsof name w = (Some "exit status 1"%string, w1) ->
  os_open name (Z.lor (Z.lor (Z.lor O_RDWR O_NOCTTY) O_NONBLOCK) O_EXCL) 0 w1
    = (d, 0, w2) ->
  os_ioctl d TIOCEXCL 0 w2 = (e1, w3) -> e1 <> 0 ->
  Linux.Open name (start s w) =
  (Some (Errorf "failed to get exclusive access - %v" [Errno e1]),
   mkState (mkPort d true (conf s)) w3
     [SysIoctl d TIOCEXCL 0;
      SysOpen name (Z.lor (Z.lor (Z.lor O_RDWR O_NOCTTY) O_NONBLOCK) O_EXCL) 0;
      SysLsof name]).
Proof.
  intros Hc Hl Hop Hi He.
  unfold Linux.Open, start, defer, bind, get_s, ret, lsof, unix_Open, sys, bind,
    ret, set_fd, set_opened, set_s, get_s, bind.
  cbn [port world trace]. rewrite Hc. cbn [port world trace]. rewrite Hl.
  cbn [String.eqb Ascii.eqb Bool.eqb negb port world trace].
  rewrite Hop. cbn [fst snd errnoErr Z.eqb port world trace].
  rewrite unix_ioctl_run. cbn [fst snd world port trace]. rewrite Hi.
  cbn [fst snd].
  destruct (Z.eqb_spec e1 0); [contradiction|]. cbn [negb].
  rewrite auto_close_nil. reflexivity.
Qed.

End Lifecycle.

(** C1, the failing inputs: on each of the three devices the error is
    returned, but no [close] is made: the trace ends with the failed
    call, and the handle is left with [opened = true] on descriptor 3.
    The deferred closure was given the [nil] error of the [defer]
    statement ([auto_close_nil]). *)
Theorem Open_failure_keeps_descriptor :
  (fst (Linux.Open "/dev/ttyUSB0" (start serialPort_zero refuses_exclusive)) =
   Some (Errorf "failed to get exclusive access - %v" [Errno ENOTTY]) /\
   port (snd (Linux.Open "/dev/ttyUSB0"
                (start serialPort_zero refuses_exclusive))) =
   mkPort 3 true Config_zero /\
   trace (snd (Linux.Open "/dev/ttyUSB0"
                 (start serialPort_zero refuses_exclusive))) =
   [SysIoctl 3 TIOCEXCL 0; SysOpen "/dev/ttyUSB0" 0x982 0;
    SysLsof "/dev/ttyUSB0"]) /\
  (fst (Linux.openPort cfg_8N1 (start serialPort_zero refuses_settings)) =
   (Linux.nil_Port, Some (Errno EIO)) /\
   port (snd (Linux.openPort cfg_8N1
                (start serialPort_zero refuses_settings))) =
   mkPort 3 true Config_zero /\
   trace (snd (Linux.openPort cfg_8N1
                 (start serialPort_zero refuses_settings))) =
   [SysTcsets 3 (fst (Linux.getTermiosFor cfg_8N1));
    SysIoctl 3 TIOCEXCL 0; SysOpen "/dev/ttyUSB0" 0x982 0;
    SysLsof "/dev/ttyUSB0"]) /\
  (fst (Linux.openPort cfg_8N1 (start serialPort_zero refuses_blocking)) =
   (Linux.nil_Port, Some (Errno EIO)) /\
   port (snd (Linux.openPort cfg_8N1
                (start serialPort_zero refuses_blocking))) =
   mkPort 3 true cfg_8N1 /\
   trace (snd (Linux.openPort cfg_8N1
                 (start serialPort_zero refuses_blocking))) =
   [SysSetNonblock 3 false;
    SysTcsets 3 (fst (Linux.getTermiosFor cfg_8N1));
    SysIoctl 3 TIOCEXCL 0; SysOpen "/dev/ttyUSB0" 0x982 0;
    SysLsof "/dev/ttyUSB0"]).
Proof. repeat split; vm_compute; reflexivity. Qed.

(** ** [SetParity] *)

(** Setting or clearing bits of a mask changes nothing outside it. *)
Lemma lor_outside (c p m : Z) :
  Z.ldiff p m = 0 -> Z.ldiff (Z.lor c p) m = Z.ldiff c m.
Proof.
  intros H. apply Z.bits_inj'. intros n Hn.
  assert (Hb : Z.testbit (Z.ldiff p m) n = false) by (rewrite H; apply Z.bits_0).
  rewrite Z.ldiff_spec in Hb. rewrite !Z.ldiff_spec, Z.lor_spec.
  destruct (Z.testbit c n), (Z.testbit p n), (Z.testbit m n);
    simpl in *; congruence.
Qed.

Lemma ldiff_outside (c p m : Z) :
  Z.ldiff p m = 0 -> Z.ldiff (Z.ldiff c p) m = Z.ldiff c m.
Proof.
  intros H. apply Z.bits_inj'. intros n Hn.
  assert (Hb : Z.testbit (Z.ldiff p m) n = false) by (rewrite H; apply Z.bits_0).
  rewrite Z.ldiff_spec in Hb. rewrite !Z.ldiff_spec.
  destruct (Z.testbit c n), (Z.testbit p n), (Z.testbit m n);
    simpl in *; congruence.
Qed.

Lemma differ_refl (t : Termios) : differ_in_parity_stop_only t t.
Proof. repeat split. Qed.

Lemma differ_Cflag_or (p : Z) (t t' : Termios) :
  Z.ldiff p parity_stop_mask = 0 ->
  differ_in_parity_stop_only t t' ->
  differ_in_parity_stop_only t (Cflag_or p t').
Proof.
  intros Hp (H1 & H2 & H3 & H4 & H5 & H6 & H7 & H8).
  repeat split; cbn; try assumption.
  rewrite (lor_outside _ _ _ Hp). exact H8.
Qed.

Lemma differ_Cflag_andnot (p : Z) (t t' : Termios) :
  Z.ldiff p parity_stop_mask = 0 ->
  differ_in_parity_stop_only t t' ->
  differ_in_parity_stop_only t (Cflag_andnot p t').
Proof.
  intros Hp (H1 & H2 & H3 & H4 & H5 & H6 & H7 & H8).
  repeat split; cbn; try assumption.
  rewrite (ldiff_outside _ _ _ Hp). exact H8.
Qed.

Section Parity.

Context {W : Type} {os : OS W}.

Lemma GetTermios_open (st : state W) :
  opened (port st) = true ->
  Linux.GetTermios st =
  let r := os_tcgets (fd (port st)) Termios_zero (world st) in
  let st1 := mkState (port st) (snd r) (SysTcgets (fd (port st)) :: trace st) in
  if negb (snd (fst r) =? 0)
  then (Termios_zero, Some (Errno (snd (fst r))), st1)
  else (fst (fst r), None, st1).
Proof.
  intros Ho. unfold Linux.GetTermios, bind, get_s, ret, sys. rewrite Ho.
  cbn [negb]. destruct (os_tcgets _ _ _) as [[t e] w1]. cbn [fst snd].
  destruct (negb _); reflexivity.
Qed.

Lemma SetTermios_open (t : Termios) (st : state W) :
  opened (port st) = true ->
  Linux.SetTermios t st =
  let r := os_tcsets (fd (port st)) t (world st) in
  (if negb (fst r =? 0) then Some (Errno (fst r)) else None,
   mkState (port st) (snd r) (SysTcsets (fd (port st)) t :: trace st)).
Proof.
  intros Ho. unfold Linux.SetTermios, bind, get_s, ret, sys. rewrite Ho.
  cbn [negb]. destruct (os_tcsets _ _ _) as [e w1]. cbn [fst snd].
  destruct (negb _); reflexivity.
Qed.

Lemma parity_switch_differ (parity : string) (t0 t t1 : Termios) :
  differ_in_parity_stop_only t0 t ->
  parity_switch parity t = Some t1 ->
  differ_in_parity_stop_only t0 t1.
Proof.
  intros Hd. unfold parity_switch.
  repeat match goal with
         | |- context [String.eqb parity ?c] => destruct (String.eqb parity c)
         end;
    intros H; try discriminate H; injection H as <-;
    try exact Hd; apply differ_Cflag_or; try exact Hd; reflexivity.
Qed.

Lemma stopbits_switch_differ (stopbits : Z) (t0 t t1 : Termios) :
  differ_in_parity_stop_only t0 t ->
  stopbits_switch stopbits t = Some t1 ->
  differ_in_parity_stop_only t0 t1.
Proof.
  intros Hd. unfold stopbits_switch.
  destruct (_ || _); [|destruct (stopbits =? 2)];
    intros H; try discriminate H; injection H as <-;
    try exact Hd; apply differ_Cflag_or; try exact Hd; reflexivity.
Qed.

Lemma parity_switch_accepts (parity : string) (t : Termios) :
  SetParity_parity parity = true -> parity_switch parity t <> None.
Proof.
  unfold SetParity_parity, parity_switch. cbn [existsb].
  repeat match goal with
         | |- context [String.eqb parity ?c] => destruct (String.eqb parity c)
         end; cbn; congruence.
Qed.

Lemma stopbits_switch_accepts (stopbits : Z) (t : Termios) :
  valid_stopbits stopbits = true -> stopbits_switch stopbits t <> None.
Proof.
  unfold valid_stopbits, stopbits_switch.
  destruct (stopbits =? 0), (stopbits =? 1), (stopbits =? 2);
    cbn; congruence.
Qed.

(** [SetParity] on an open handle, by the answers of the two ioctls. *)
Lemma SetParity_open (s : serialPort) (w : W) (parity : string)
    (stopbits : Z) :
  opened s = true ->
  Linux.SetParity parity stopbits (start s w) =
  let r := os_tcgets (fd s) Termios_zero w in
  let st1 := mkState s (snd r) [SysTcgets (fd s)] in
  if negb (snd (fst r) =? 0) then (Some (Errno (snd (fst r))), st1)
  else
    match parity_switch parity
            (Cflag_andnot (Z.lor (Z.lor PARENB PARODD) CMSPAR) (fst (fst r)))
    with
    | None => (Some (Errorf "invalid or not supported parity" []), st1)
    | Some t1 =>
      match stopbits_switch stopbits (Cflag_andnot CSTOPB t1) with
      | None => (Some (Errorf "invalid or not supported stop bits" []), st1)
      | Some t2 =>
        let r2 := os_tcsets (fd s) t2 (snd r) in
        let tr := [SysTcsets (fd s) t2; SysTcgets (fd s)] in
        if negb (fst r2 =? 0)
        then (Some (Errno (fst r2)), mkState s (snd r2) tr)
        else (None,
              mkState (mkPort (fd s) (opened s)
                         (with_parity_stopbits parity stopbits (conf s)))
                (snd r2) tr)
      end
    end.
Proof.
  intros Ho. unfold Linux.SetParity, start, bind.
  rewrite GetTermios_open by exact Ho. cbn [port world trace]. cbv zeta.
  destruct (negb (snd (fst (os_tcgets (fd s) Termios_zero w)) =? 0));
    cbn [fst snd]; [reflexivity|].
  fold (parity_switch parity
          (Cflag_andnot (Z.lor (Z.lor PARENB PARODD) CMSPAR)
             (fst (fst (os_tcgets (fd s) Termios_zero w))))).
  destruct (parity_switch _ _) as [t1|]; [|reflexivity].
  fold (stopbits_switch stopbits (Cflag_andnot CSTOPB t1)).
  destruct (stopbits_switch _ _) as [t2|]; [|reflexivity].
  rewrite SetTermios_open by exact Ho. cbn [port world trace]. cbv zeta.
  destruct (negb (fst (os_tcsets (fd s) t2 _) =? 0)); reflexivity.
Qed.

(** C7: on an open handle, whatever the arguments, every settings write
    [SetParity] makes goes to the descriptor of the handle and carries
    the fetched settings changed in nothing but the parity and stop-bit
    bits of the control flags; when [SetParity] returns [nil] it has made
    exactly that one write and the stored configuration has the new
    parity and stop bits and is otherwise unchanged; when it returns an
    error the handle is as it was.  It returns [nil] for "N", "E", "O",
    "S", "M" with 0, 1 or 2 stop bits when the two ioctls succeed. *)
Theorem SetParity_frame (s : serialPort) (w : W) (parity : string)
    (stopbits : Z) :
  opened s = true ->
  let fetched := fst (fst (os_tcgets (fd s) Termios_zero w)) in
  let r := Linux.SetParity parity stopbits (start s w) in
  (forall (d : Z) (t' : Termios),
     In (SysTcsets d t') (trace (snd r)) ->
     d = fd s /\ differ_in_parity_stop_only fetched t') /\
  (fst r = None ->
   port (snd r) =
   mkPort (fd s) (opened s) (with_parity_stopbits parity stopbits (conf s)) /\
   exists t', trace (snd r) = [SysTcsets (fd s) t'; SysTcgets (fd s)]) /\
  (fst r <> None -> port (snd r) = s) /\
  (SetParity_parity parity = true -> valid_stopbits stopbits = true ->
   snd (fst (os_tcgets (fd s) Termios_zero w)) = 0 ->
   (forall t', fst (os_tcsets (fd s) t'
                      (snd (os_tcgets (fd s) Termios_zero w))) = 0) ->
   fst r = None).
Proof.
  intros Ho. cbv zeta. rewrite (SetParity_open s w parity stopbits Ho).
  cbv zeta.
  set (r := os_tcgets (fd s) Termios_zero w).
  destruct (Z.eqb_spec (snd (fst r)) 0) as [He|He]; cbn [negb].
  2:{ cbn [fst snd trace port]. repeat apply conj.
      - intros d t' [H|[]]. discriminate H.
      - discriminate.
      - reflexivity.
      - intros _ _ H. contradiction. }
  destruct (parity_switch parity _) as [t1|] eqn:Hp.
  2:{ cbn [fst snd trace port]. repeat apply conj.
      - intros d t' [H|[]]. discriminate H.
      - discriminate.
      - reflexivity.
      - intros H. apply parity_switch_accepts with (t := Cflag_andnot
          (Z.lor (Z.lor PARENB PARODD) CMSPAR) (fst (fst r))) in H.
        contradiction. }
  destruct (stopbits_switch stopbits _) as [t2|] eqn:Hs.
  2:{ cbn [fst snd trace port]. repeat apply conj.
      - intros d t' [H|[]]. discriminate H.
      - discriminate.
      - reflexivity.
      - intros _ H. apply stopbits_switch_accepts
          with (t := Cflag_andnot CSTOPB t1) in H. contradiction. }
  assert (Hd : differ_in_parity_stop_only (fst (fst r)) t2).
  { eapply stopbits_switch_differ; [|exact Hs].
    apply differ_Cflag_andnot; [reflexivity|].
    eapply parity_switch_differ; [|exact Hp].
    apply differ_Cflag_andnot; [reflexivity|]. apply differ_refl. }
  destruct (Z.eqb_spec (fst (os_tcsets (fd s) t2 (snd r))) 0) as [He2|He2];
    cbn [negb fst snd trace port]; repeat apply conj.
  - intros d t' [H|[H|[]]]; [|discriminate H].
    injection H as <- <-. split; [reflexivity|exact Hd].
  - intros _. split; [reflexivity|]. eexists. reflexivity.
  - intros H. contradiction H. reflexivity.
  - reflexivity.
  - intros d t' [H|[H|[]]]; [|discriminate H].
    injection H as <- <-. split; [reflexivity|exact Hd].
  - discriminate.
  - reflexivity.
  - intros _ _ _ H. specialize (H t2). contradiction.
Qed.

End Parity.

Lemma SetParity_frame_witness :
  fst (Linux.SetParity "E" 2 (start (open_port 0) healthy)) = None /\
  port (snd (Linux.SetParity "E" 2 (start (open_port 0) healthy))) =
  mkPort 3 true (mkConfig "/dev/ttyUSB0" 9600 0 "E" 2 0).
Proof.
  destruct (SetParity_frame (open_port 0) healthy "E" 2 eq_refl)
    as (_ & Hok & _ & Hnil).
  assert (H : fst (Linux.SetParity "E" 2 (start (open_port 0) healthy)) = None)
    by (apply Hnil; [reflexivity | reflexivity | reflexivity |
                     intros t'; reflexivity]).
  split; [exact H|]. exact (proj1 (Hok H)).
Defined.

Lemma Close_spec_witness :
  Linux.Close (start serialPort_zero healthy) =
  (Some ErrPortNotInitialized, start serialPort_zero healthy) /\
  opened (port (snd (Linux.Close (start (open_port 0) refuses_exclusive)))) =
  false /\
  fd (port (snd (Linux.Close (start (open_port 0) refuses_exclusive)))) = 0.
Proof.
  split.
  - exact (proj1 (Close_spec (start serialPort_zero healthy)) eq_refl).
  - destruct (proj2 (Close_spec (start (open_port 0) refuses_exclusive))
                eq_refl) as (Ho & Hf & _).
    split; [exact Ho | exact Hf].
Defined.

(** ** The Darwin stubs *)

(** C8, as stated, fails: [SetParity] on Darwin returns [nil], not
    [ErrNotImplemented]. *)
Lemma Darwin_SetParity_not_ErrNotImplemented :
  fst (Darwin.SetParity "N" 1 (start serialPort_zero healthy)) = None /\
  fst (Darwin.SetParity "N" 1 (start serialPort_zero healthy)) <>
  Some ErrNotImplemented.
Proof. split; [reflexivity | discriminate]. Qed.

(** C8, as the code has it: [SetParity] on Darwin returns [nil] for every
    input, makes no call and leaves the handle as it was; so do the other
    line-discipline stubs of the platform. *)
Theorem Darwin_SetParity_nil {W : Type} {os : OS W} (parity : string)
    (stopbits : Z) (t : Termios) (cfg : Config) (st : state W) :
  Darwin.SetParity parity stopbits st = (None, st) /\
  Darwin.SetTermios t st = (None, st) /\
  Darwin.GetTermios st = (Termios_zero, None, st) /\
  Darwin.getTermiosFor cfg = (Termios_zero, None).
Proof. repeat split. Qed.

(** ** [Flush] *)

(** C10: on a handle that is not open, with its descriptor value 0,
    [Flush] on either platform makes the flush ioctl on descriptor 0 and
    returns the errno of that call, never [ErrNotOpen]; [Read] and
    [Write] on the same handle return [ErrNotOpen] without a call. *)
Theorem Flush_ignores_opened {W : Type} {os : OS W} (s : serialPort) (w : W)
    (p : list Z) (fuel : nat) :
  opened s = false -> fd s = 0 ->
  Linux.Flush (start s w) =
  (errnoErr (fst (os_ioctl 0 0x540B unix.TCIOFLUSH w)),
   mkState s (snd (os_ioctl 0 0x540B unix.TCIOFLUSH w))
     [SysIoctl 0 0x540B unix.TCIOFLUSH]) /\
  fst (Linux.Flush (start s w)) <> Some ErrNotOpen /\
  Darwin.Flush (start s w) =
  (errnoErr (fst (os_ioctl 0 0x540B Darwin.TCIOFLUSH w)),
   mkState s (snd (os_ioctl 0 0x540B Darwin.TCIOFLUSH w))
     [SysIoctl 0 0x540B Darwin.TCIOFLUSH]) /\
  fst (Darwin.Flush (start s w)) <> Some ErrNotOpen /\
  Linux.Read fuel p (start s w) =
  (Returns (p, 0, Some ErrNotOpen), start s w) /\
  Linux.Write p (start s w) = (0, Some ErrNotOpen, start s w).
Proof.
  intros Ho Hfd.
  assert (HL : Linux.Flush (start s w) =
               (errnoErr (fst (os_ioctl 0 0x540B unix.TCIOFLUSH w)),
                mkState s (snd (os_ioctl 0 0x540B unix.TCIOFLUSH w))
                  [SysIoctl 0 0x540B unix.TCIOFLUSH])).
  { unfold Linux.Flush, start, bind, get_s. rewrite unix_ioctl_run.
    cbn [port world trace]. rewrite Hfd. unfold errnoErr, ret, Linux.TCFLSH.
    destruct (_ =? 0); reflexivity. }
  assert (HD : Darwin.Flush (start s w) =
               (errnoErr (fst (os_ioctl 0 0x540B Darwin.TCIOFLUSH w)),
                mkState s (snd (os_ioctl 0 0x540B Darwin.TCIOFLUSH w))
                  [SysIoctl 0 0x540B Darwin.TCIOFLUSH])).
  { unfold Darwin.Flush, start, bind, get_s. rewrite unix_ioctl_run.
    cbn [port world trace]. rewrite Hfd. unfold errnoErr, ret, Darwin.TCFLSH.
    destruct (_ =? 0); reflexivity. }
  repeat apply conj.
  - exact HL.
  - rewrite HL. cbn [fst]. unfold errnoErr. destruct (_ =? 0); discriminate.
  - exact HD.
  - rewrite HD. cbn [fst]. unfold errnoErr. destruct (_ =? 0); discriminate.
  - unfold Linux.Read, start, bind, get_s, ret. cbn [port]. rewrite Hfd.
    change (fdset 0 FdSet_zero) with (Some (mkFdSet (<[0%nat := 1]> (replicate 16 0)))).
    cbn [port]. rewrite Ho. reflexivity.
  - unfold Linux.Write, start, bind, get_s, ret. cbn [port]. rewrite Ho.
    reflexivity.
Qed.

Lemma Flush_ignores_opened_witness :
  rev (trace (snd (Linux.Flush (start serialPort_zero healthy)))) =
  [SysIoctl 0 0x540B unix.TCIOFLUSH] /\
  fst (Linux.Flush (start serialPort_zero healthy)) <> Some ErrNotOpen /\
  fst (Linux.Write [65; 84] (start serialPort_zero healthy)) =
  (0, Some ErrNotOpen).
Proof.
  destruct (Flush_ignores_opened serialPort_zero healthy [65; 84] 1
              eq_refl eq_refl) as (HL & Hne & _ & _ & _ & HW).
  rewrite HL, HW. split; [reflexivity|]. split; [|reflexivity].
  rewrite HL in Hne. exact Hne.
Defined.

(** * Further properties of the driver *)

(** ** Descriptor sets: [fdget], [fdset], [fdisset] *)

Lemma offsets_In (pos : Z) : 0 <= pos < 64 -> In pos offsets.
Proof.
  intros H. unfold offsets. apply in_map_iff. exists (Z.to_nat pos).
  split; [lia|]. apply in_seq. lia.
Qed.

(** The bit of an offset is not zero, and the bits of two offsets share
    nothing. *)
Lemma shl64_bit (a : Z) :
  0 <= a < 64 -> (Z.land (shl64 1 a) (shl64 1 a) =? 0) = false.
Proof.
  intros Ha.
  assert (H : forallb (fun a => negb (Z.land (shl64 1 a) (shl64 1 a) =? 0))
                offsets = true) by (vm_compute; reflexivity).
  rewrite forallb_forall in H. apply negb_true_iff, H, offsets_In, Ha.
Qed.

Lemma shl64_disjoint (a b : Z) :
  0 <= a < 64 -> 0 <= b < 64 -> a <> b ->
  (Z.land (shl64 1 a) (shl64 1 b) =? 0) = true.
Proof.
  intros Ha Hb Hne.
  assert (H : forallb (fun a => forallb (fun b =>
                (a =? b) || (Z.land (shl64 1 a) (shl64 1 b) =? 0)) offsets)
                offsets = true) by (vm_compute; reflexivity).
  rewrite forallb_forall in H. specialize (H a (offsets_In a Ha)).
  rewrite forallb_forall in H. specialize (H b (offsets_In b Hb)).
  destruct (Z.eqb_spec a b); [contradiction|]. exact H.
Qed.

(** The word and the offset of a descriptor that is not negative, in a
    set of sixteen words. *)
Lemma fdget_nonneg (d : Z) (fds : FdSet) :
  0 <= d -> length (Bits fds) = 16%nat ->
  fdget d fds = ((d / 64) mod 16, d mod 64).
Proof.
  intros Hd Hl. unfold fdget. rewrite Hl.
  change (Z.of_nat 16) with 16. change (FD_SETSIZE ÷ 16) with 64.
  rewrite (Z.quot_div_nonneg d 64) by lia.
  rewrite Z.rem_mod_nonneg, Z.rem_mod_nonneg; try lia.
  - reflexivity.
  - apply Z.div_pos; lia.
Qed.

(** X1: a descriptor that is not negative is found in the set it was put
    into, and no other descriptor below [FD_SETSIZE] is. *)
Theorem fdset_fdisset (d : Z) :
  0 <= d ->
  exists rfds,
    fdset d FdSet_zero = Some rfds /\
    fdisset d rfds = Some true /\
    (forall d', d < 1024 -> 0 <= d' < 1024 -> d' <> d ->
                fdisset d' rfds = Some false).
Proof.
  intros Hd.
  pose proof (Z.mod_pos_bound (d / 64) 16 ltac:(lia)) as Hi.
  pose proof (Z.mod_pos_bound d 64 ltac:(lia)) as Hp.
  assert (Hset : fdset d FdSet_zero =
                 Some (mkFdSet (<[Z.to_nat ((d / 64) mod 16) :=
                                    shl64 1 (d mod 64)]> (replicate 16 0)))).
  { unfold fdset. rewrite (fdget_nonneg d FdSet_zero Hd eq_refl).
    cbn [FdSet_zero Bits]. rewrite length_replicate.
    destruct (Z.leb_spec 0 ((d / 64) mod 16)); [|lia].
    destruct (Z.ltb_spec ((d / 64) mod 16) (Z.of_nat 16)); [|lia].
    reflexivity. }
  eexists. split; [exact Hset|].
  assert (Hlen : length (Bits (mkFdSet (<[Z.to_nat ((d / 64) mod 16) :=
                    shl64 1 (d mod 64)]> (replicate 16 0)))) = 16%nat)
    by (cbn [Bits]; rewrite length_insert, length_replicate; reflexivity).
  split.
  - unfold fdisset. rewrite (fdget_nonneg d _ Hd Hlen), Hlen.
    destruct (Z.leb_spec 0 ((d / 64) mod 16)); [|lia].
    destruct (Z.ltb_spec ((d / 64) mod 16) (Z.of_nat 16)); [|lia].
    cbn [andb Bits]. rewrite list_lookup_insert_eq
      by (rewrite length_replicate; lia).
    rewrite shl64_bit by lia. reflexivity.
  - intros d' Hd1024 Hd' Hne.
    pose proof (Z.mod_pos_bound (d' / 64) 16 ltac:(lia)) as Hi'.
    pose proof (Z.mod_pos_bound d' 64 ltac:(lia)) as Hp'.
    unfold fdisset. rewrite (fdget_nonneg d' _ ltac:(lia) Hlen), Hlen.
    destruct (Z.leb_spec 0 ((d' / 64) mod 16)); [|lia].
    destruct (Z.ltb_spec ((d' / 64) mod 16) (Z.of_nat 16)); [|lia].
    cbn [andb Bits].
    destruct (Z.eq_dec ((d' / 64) mod 16) ((d / 64) mod 16)) as [Heq|Hdiff].
    + rewrite Heq, list_lookup_insert_eq by (rewrite length_replicate; lia).
      assert (Hoff : d mod 64 <> d' mod 64).
      { intros Hm. apply Hne.
        rewrite (Z.mod_small (d / 64) 16) in Heq
          by (split; [apply Z.div_pos; lia | apply Z.div_lt_upper_bound; lia]).
        rewrite (Z.mod_small (d' / 64) 16) in Heq
          by (split; [apply Z.div_pos; lia | apply Z.div_lt_upper_bound; lia]).
        rewrite (Z.div_mod d 64), (Z.div_mod d' 64) by lia. lia. }
      rewrite (shl64_disjoint (d mod 64) (d' mod 64)) by lia. reflexivity.
    + rewrite list_lookup_insert_ne by lia.
      rewrite lookup_replicate_2 by lia. reflexivity.
Qed.

Lemma fdset_fdisset_witness :
  exists rfds,
    fdset 70 FdSet_zero = Some rfds /\
    fdisset 70 rfds = Some true /\
    (forall d', 70 < 1024 -> 0 <= d' < 1024 -> d' <> 70 ->
                fdisset d' rfds = Some false).
Proof. apply (fdset_fdisset 70). lia. Defined.

(** X2: [fdget] has no bound check: a descriptor of [FD_SETSIZE] or more
    takes the slot of the descriptor 1024 below it, so the two cannot be
    told apart in a set. *)
Theorem fdset_wraps_at_FD_SETSIZE (d : Z) :
  0 <= d ->
  fdset (d + 1024) FdSet_zero = fdset d FdSet_zero /\
  forall rfds, length (Bits rfds) = 16%nat ->
               fdisset (d + 1024) rfds = fdisset d rfds.
Proof.
  intros Hd.
  assert (Hget : forall fds, length (Bits fds) = 16%nat ->
                             fdget (d + 1024) fds = fdget d fds).
  { intros fds Hl. rewrite !fdget_nonneg by (try lia; exact Hl).
    replace (d + 1024) with (d + 16 * 64) by lia.
    rewrite Z.div_add by lia.
    replace (d + 16 * 64) with (d + 16 * 64) by lia.
    rewrite (Z.add_mod (d / 64) 16 16), Z.mod_same, Z.add_0_r, Z.mod_mod by lia.
    replace (d + 16 * 64) with (d + 16 * 64) by lia.
    rewrite Z.mod_add by lia. reflexivity. }
  split.
  - unfold fdset. rewrite (Hget FdSet_zero eq_refl). reflexivity.
  - intros rfds Hl. unfold fdisset. rewrite (Hget rfds Hl). reflexivity.
Qed.

Lemma fdset_wraps_at_FD_SETSIZE_witness :
  fdset (3 + 1024) FdSet_zero = fdset 3 FdSet_zero /\
  forall rfds, length (Bits rfds) = 16%nat ->
               fdisset (3 + 1024) rfds = fdisset 3 rfds.
Proof. apply (fdset_wraps_at_FD_SETSIZE 3). lia. Defined.

(** ** [Read] with a timeout, in general *)

Section ReadSelect.

Context {W : Type} {os : OS W}.

(** After [k] interrupted calls of [select] and one that is not, the
    first loop of [Read] is left with the answer of the last: [nil] for
    success, the wrapped errno otherwise.  Each retry is made with the
    descriptor set and the timeout the interrupted call left behind, and
    the loop has made these [k + 1] calls and no other. *)
Lemma select_loop_interrupted (k : nat) :
  forall (fuel : nat) (s : serialPort) (d : Z) (rfds : FdSet)
         (tv : option Timeval) (w : W) (tr : list syscall) (rk : FdSet)
         (tvk : option Timeval) (wk : W) (r' : FdSet)
         (tv' : option Timeval) (e : Z) (w' : W),
  interrupted_selects k (wrap64 (d + 1)) rfds tv w = Some (rk, tvk, wk) ->
  os_select (wrap64 (d + 1)) rk tvk wk = (r', tv', e, w') ->
  e <> EINTR -> (k < fuel)%nat ->
  exists calls,
    Linux.select_loop fuel d rfds tv (mkState s w tr) =
    (Returns (r', if e =? 0 then None
                  else Some (Errorf "serial: could not select: %v"
                               [Errno e])),
     mkState s w' (SysSelect (wrap64 (d + 1)) rk tvk :: calls ++ tr)) /\
    length calls = k /\
    Forall (fun c => exists r t, c = SysSelect (wrap64 (d + 1)) r t) calls.
Proof.
  induction k as [|k IH];
    intros fuel s d rfds tv w tr rk tvk wk r' tv' e w' Hk Hr He Hf.
  - cbn in Hk. injection Hk as <- <- <-.
    destruct fuel as [|fuel]; [lia|].
    rewrite select_loop_S. cbn [port world trace]. rewrite Hr. cbn [fst snd].
    exists []. split; [|split; [reflexivity|constructor]].
    unfold errnoErr. destruct (Z.eqb_spec e 0) as [->|Hz]; [reflexivity|].
    cbn [is_EINTR]. destruct (Z.eqb_spec e EINTR); [contradiction|].
    reflexivity.
  - cbn [interrupted_selects] in Hk. cbv zeta in Hk.
    destruct fuel as [|fuel]; [lia|].
    rewrite select_loop_S. cbn [port world trace]. cbv zeta.
    destruct (Z.eqb_spec (snd (fst (os_select (wrap64 (d + 1)) rfds tv w)))
                EINTR) as [Hi|]; [|discriminate].
    rewrite Hi. change (errnoErr EINTR) with (Some (Errno EINTR)).
    cbn [is_EINTR Z.eqb EINTR Pos.eqb negb].
    destruct (IH fuel s d _ _ _ (SysSelect (wrap64 (d + 1)) rfds tv :: tr)
                rk tvk wk r' tv' e w' Hk Hr He ltac:(lia))
      as (calls & Hrun & Hlen & Hall).
    exists (calls ++ [SysSelect (wrap64 (d + 1)) rfds tv]). rewrite Hrun.
    rewrite <- app_assoc. split; [reflexivity|]. split.
    + rewrite length_app. cbn. lia.
    + apply Forall_app. split; [exact Hall|].
      constructor; [do 2 eexists; reflexivity|constructor].
Qed.

(** X3: on an open handle with a positive timeout, once [select] has
    answered without an error (after any number of interrupted calls,
    which are retried), [Read] returns [ErrReadTimeout] with length 0 and
    makes no read when the descriptor is not in the answered set, and
    otherwise makes exactly one read and returns its buffer, length and
    error as they are. *)
Theorem Read_timeout_spec (s : serialPort) (k fuel : nat) (p : list Z)
    (w : W) (rfds0 rk : FdSet) (tvk : option Timeval) (wk : W) (r' : FdSet)
    (tv' : option Timeval) (w' : W) :
  opened s = true -> 0 < ReadTimeout (conf s) ->
  fdset (fd s) FdSet_zero = Some rfds0 ->
  interrupted_selects k (wrap64 (fd s + 1)) rfds0 (Linux.read_timeval s) w =
  Some (rk, tvk, wk) ->
  os_select (wrap64 (fd s + 1)) rk tvk wk = (r', tv', 0, w') ->
  (k < fuel)%nat ->
  exists selects,
    length selects = S k /\
    Forall (fun c => exists r t, c = SysSelect (wrap64 (fd s + 1)) r t)
      selects /\
    (fdisset (fd s) r' = Some false ->
     Linux.Read fuel p (start s w) =
     (Returns (p, 0, Some ErrReadTimeout), mkState s w' selects)) /\
    (fdisset (fd s) r' = Some true ->
     Linux.Read fuel p (start s w) =
     (Returns (fst (fst (fst (os_read (fd s) p w'))),
               snd (fst (fst (os_read (fd s) p w'))),
               errnoErr (snd (fst (os_read (fd s) p w')))),
      mkState s (snd (os_read (fd s) p w'))
        (SysRead (fd s) p :: selects))).
Proof.
  intros Ho Ht Hset Hk Hr Hf.
  destruct (select_loop_interrupted k fuel s (fd s) rfds0
              (Linux.read_timeval s) w [] rk tvk wk r' tv' 0 w' Hk Hr
              ltac:(discriminate) Hf) as (calls & Hrun & Hlen & Hall).
  rewrite app_nil_r in Hrun. cbn [Z.eqb] in Hrun.
  exists (SysSelect (wrap64 (fd s + 1)) rk tvk :: calls).
  split; [cbn; lia|]. split.
  { constructor; [do 2 eexists; reflexivity|exact Hall]. }
  unfold start.
  rewrite (Read_timeout_path fuel p s w [] rfds0 Ho Ht Hset). cbv zeta.
  rewrite Hrun. cbn [fst snd]. split; intros Hq; rewrite Hq.
  - reflexivity.
  - rewrite unix_Read_run. reflexivity.
Qed.

(** X4: when [select] fails with an errno other than [EINTR], [Read]
    returns length 0 with the errno wrapped into "serial: could not
    select", and makes no read. *)
Theorem Read_select_failure (s : serialPort) (k fuel : nat) (p : list Z)
    (w : W) (rfds0 rk : FdSet) (tvk : option Timeval) (wk : W) (r' : FdSet)
    (tv' : option Timeval) (e : Z) (w' : W) :
  opened s = true -> 0 < ReadTimeout (conf s) ->
  fdset (fd s) FdSet_zero = Some rfds0 ->
  interrupted_selects k (wrap64 (fd s + 1)) rfds0 (Linux.read_timeval s) w =
  Some (rk, tvk, wk) ->
  os_select (wrap64 (fd s + 1)) rk tvk wk = (r', tv', e, w') ->
  e <> 0 -> e <> EINTR -> (k < fuel)%nat ->
  exists selects,
    length selects = S k /\
    Forall (fun c => exists r t, c = SysSelect (wrap64 (fd s + 1)) r t)
      selects /\
    Linux.Read fuel p (start s w) =
    (Returns (p, 0, Some (Errorf "serial: could not select: %v" [Errno e])),
     mkState s w' selects).
Proof.
  intros Ho Ht Hset Hk Hr Hz He Hf.
  destruct (select_loop_interrupted k fuel s (fd s) rfds0
              (Linux.read_timeval s) w [] rk tvk wk r' tv' e w' Hk Hr He Hf)
    as (calls & Hrun & Hlen & Hall).
  rewrite app_nil_r in Hrun.
  destruct (Z.eqb_spec e 0); [contradiction|].
  exists (SysSelect (wrap64 (fd s + 1)) rk tvk :: calls).
  split; [cbn; lia|]. split.
  { constructor; [do 2 eexists; reflexivity|exact Hall]. }
  unfold start.
  rewrite (Read_timeout_path fuel p s w [] rfds0 Ho Ht Hset). cbv zeta.
  rewrite Hrun. reflexivity.
Qed.

End ReadSelect.

Lemma Read_timeout_spec_witness :
  exists selects,
    length selects = 2%nat /\
    Forall (fun c => exists r t,
              c = SysSelect (wrap64 (fd (open_port 200) + 1)) r t) selects /\
    (fdisset (fd (open_port 200)) FdSet_zero = Some false ->
     Linux.Read 2 [0; 0]
       (start (open_port 200)
          (answering [(ready3, EINTR); (FdSet_zero, 0)] [])) =
     (Returns ([0; 0], 0, Some ErrReadTimeout),
      mkState (open_port 200) (answering [] []) selects)) /\
    (fdisset (fd (open_port 200)) FdSet_zero = Some true ->
     Linux.Read 2 [0; 0]
       (start (open_port 200)
          (answering [(ready3, EINTR); (FdSet_zero, 0)] [])) =
     (Returns (fst (fst (fst (os_read (fd (open_port 200)) [0; 0]
                                (answering [] [])))),
               snd (fst (fst (os_read (fd (open_port 200)) [0; 0]
                                (answering [] [])))),
               errnoErr (snd (fst (os_read (fd (open_port 200)) [0; 0]
                                     (answering [] []))))),
      mkState (open_port 200)
        (snd (os_read (fd (open_port 200)) [0; 0] (answering [] [])))
        (SysRead (fd (open_port 200)) [0; 0] :: selects))).
Proof.
  apply (Read_timeout_spec (open_port 200) 1 2 [0; 0]
           (answering [(ready3, EINTR); (FdSet_zero, 0)] [])
           ready3 ready3 (Linux.read_timeval (open_port 200))
           (answering [(FdSet_zero, 0)] []) FdSet_zero
           (Linux.read_timeval (open_port 200)) (answering [] [])).
  - reflexivity.
  - cbn. lia.
  - reflexivity.
  - reflexivity.
  - reflexivity.
  - lia.
Defined.

Lemma Read_select_failure_witness :
  exists selects,
    length selects = 1%nat /\
    Forall (fun c => exists r t,
              c = SysSelect (wrap64 (fd (open_port 200) + 1)) r t) selects /\
    Linux.Read 1 [0; 0]
      (start (open_port 200) (answering [(ready3, EIO)] [])) =
    (Returns ([0; 0], 0,
              Some (Errorf "serial: could not select: %v" [Errno EIO])),
     mkState (open_port 200) (answering [] []) selects).
Proof.
  apply (Read_select_failure (open_port 200) 0 1 [0; 0]
           (answering [(ready3, EIO)] [])
           ready3 ready3 (Linux.read_timeval (open_port 200))
           (answering [(ready3, EIO)] []) ready3
           (Linux.read_timeval (open_port 200)) EIO (answering [] [])).
  - reflexivity.
  - cbn. lia.
  - reflexivity.
  - reflexivity.
  - reflexivity.
  - discriminate.
  - discriminate.
  - lia.
Defined.

(** ** [Write], and what leaves the handle alone *)

Section WriteAndHandle.

Context {W : Type} {os : OS W}.

Lemma unix_Write_run (d : Z) (p : list Z) (st : state W) :
  unix_Write d p st =
  (fst (fst (os_write d p (world st))),
   errnoErr (snd (fst (os_write d p (world st)))),
   mkState (port st) (snd (os_write d p (world st)))
     (SysWrite d p :: trace st)).
Proof.
  unfold unix_Write, bind, ret, sys.
  destruct (os_write d p (world st)) as [[n e] w']. reflexivity.
Qed.

(** X5: [Write] on a handle that is not open returns [ErrNotOpen] with
    length 0 and makes no call.  On an open handle it makes exactly one
    write, whatever the answer: the length it returns is never negative,
    the errno is handed up as it is, and an interrupted write is not
    retried. *)
Theorem Write_spec (p : list Z) (st : state W) :
  (opened (port st) = false ->
   Linux.Write p st = (0, Some ErrNotOpen, st)) /\
  (opened (port st) = true ->
   forall (n e : Z) (w' : W),
     os_write (fd (port st)) p (world st) = (n, e, w') ->
     Linux.Write p st =
     (Z.max n 0, errnoErr e,
      mkState (port st) w' (SysWrite (fd (port st)) p :: trace st)) /\
     (e = EINTR ->
      snd (fst (Linux.Write p st)) = Some (Errno EINTR))).
Proof.
  split; intros Ho.
  - unfold Linux.Write, bind, get_s, ret. rewrite Ho. reflexivity.
  - intros n e w' Hw.
    assert (Hrun : Linux.Write p st =
                   (Z.max n 0, errnoErr e,
                    mkState (port st) w'
                      (SysWrite (fd (port st)) p :: trace st))).
    { unfold Linux.Write, bind, get_s, ret. rewrite Ho. cbn [negb].
      rewrite unix_Write_run, Hw. cbn [fst snd].
      replace (if n <? 0 then 0 else n) with (Z.max n 0)
        by (destruct (Z.ltb_spec n 0); lia).
      reflexivity. }
    split; [exact Hrun|]. intros ->. rewrite Hrun. reflexivity.
Qed.

Lemma read_loop_port (fuel : nat) :
  forall (p : list Z) (st : state W),
  port (snd (Linux.read_loop fuel p st)) = port st.
Proof.
  induction fuel as [|fuel IH]; intros p st.
  - reflexivity.
  - rewrite read_loop_S. cbv zeta. destruct (is_EINTR _).
    + rewrite IH. reflexivity.
    + reflexivity.
Qed.

(** X6: [Read], [Write], [Flush], [GetTermios] and [SetTermios] never
    change the handle: descriptor, [opened] and the stored configuration
    are after the call what they were before, whatever the operating
    system answers. *)
Theorem handle_unchanged (fuel : nat) (p : list Z) (t : Termios)
    (st : state W) :
  port (snd (Linux.Read fuel p st)) = port st /\
  port (snd (Linux.Write p st)) = port st /\
  port (snd (Linux.Flush st)) = port st /\
  port (snd (Linux.GetTermios st)) = port st /\
  port (snd (Linux.SetTermios t st)) = port st.
Proof.
  repeat apply conj.
  - unfold Linux.Read, bind, get_s, ret.
    destruct (fdset _ _) as [rfds|]; [|reflexivity].
    destruct (negb _); [reflexivity|].
    destruct (0 <? _); [|apply read_loop_port].
    destruct (select_loop_trace fuel (fd (port st)) rfds
                (Linux.read_timeval (port st)) st) as (new & _ & Hp).
    destruct (Linux.select_loop _ _ _ _ _) as [[[rfds' [e|]]| |] st1];
      cbn [snd] in *; try exact Hp.
    destruct (fdisset _ _) as [[|]|]; try exact Hp.
    rewrite unix_Read_run. cbn [snd port]. exact Hp.
  - unfold Linux.Write, bind, get_s, ret.
    destruct (negb _); [reflexivity|]. rewrite unix_Write_run. reflexivity.
  - unfold Linux.Flush, bind, get_s, ret. rewrite unix_ioctl_run.
    cbn [fst snd]. destruct (_ =? 0); reflexivity.
  - unfold Linux.GetTermios, bind, get_s, ret, sys.
    destruct (negb _); [reflexivity|].
    destruct (os_tcgets _ _ _) as [[t' e] w']. cbn [fst snd].
    destruct (negb _); reflexivity.
  - unfold Linux.SetTermios, bind, get_s, ret, sys.
    destruct (negb _); [reflexivity|].
    destruct (os_tcsets _ _ _) as [e w']. destruct (negb _); reflexivity.
Qed.

(** X7: on a handle that is not open, [GetTermios], [SetTermios] and
    [SetParity] return [ErrNotOpen] and make no call; [SetParity] does so
    before it looks at its arguments, so even an unsupported parity is
    answered with [ErrNotOpen]. *)
Theorem not_open_settings (parity : string) (stopbits : Z) (t : Termios)
    (st : state W) :
  opened (port st) = false ->
  Linux.GetTermios st = (Termios_zero, Some ErrNotOpen, st) /\
  Linux.SetTermios t st = (Some ErrNotOpen, st) /\
  Linux.SetParity parity stopbits st = (Some ErrNotOpen, st).
Proof.
  intros Hc.
  assert (HG : Linux.GetTermios st = (Termios_zero, Some ErrNotOpen, st)).
  { unfold Linux.GetTermios, bind, get_s, ret. rewrite Hc. reflexivity. }
  repeat apply conj.
  - exact HG.
  - unfold Linux.SetTermios, bind, get_s, ret. rewrite Hc. reflexivity.
  - unfold Linux.SetParity, bind. rewrite HG. reflexivity.
Qed.

End WriteAndHandle.

Lemma Write_spec_witness :
  Linux.Write [65; 84] (start serialPort_zero healthy) =
  (0, Some ErrNotOpen, start serialPort_zero healthy) /\
  Linux.Write [65; 84] (start (open_port 0) healthy) =
  (Z.max 2 0, errnoErr 0,
   mkState (open_port 0) healthy [SysWrite 3 [65; 84]]).
Proof.
  split.
  - exact (proj1 (Write_spec [65; 84] (start serialPort_zero healthy))
             eq_refl).
  - exact (proj1 (proj2 (Write_spec [65; 84] (start (open_port 0) healthy))
                    eq_refl 2 0 healthy eq_refl)).
Defined.

Lemma not_open_settings_witness :
  Linux.SetParity "Z" 7 (start serialPort_zero healthy) =
  (Some ErrNotOpen, start serialPort_zero healthy).
Proof.
  exact (proj2 (proj2 (not_open_settings "Z" 7 Termios_zero
                         (start serialPort_zero healthy) eq_refl))).
Defined.

(** ** [SetParity], beyond the frame *)

(** Bits set inside a mask after it was cleared are the whole content of
    the mask; clearing or setting bits outside a mask leaves its content
    alone. *)
Lemma land_lor_ldiff (c p m : Z) :
  Z.ldiff p m = 0 -> Z.land (Z.lor (Z.ldiff c m) p) m = p.
Proof.
  intros H. apply Z.bits_inj'. intros n Hn.
  assert (Hb : Z.testbit (Z.ldiff p m) n = false) by (rewrite H; apply Z.bits_0).
  rewrite Z.ldiff_spec in Hb.
  rewrite Z.land_spec, Z.lor_spec, Z.ldiff_spec.
  destruct (Z.testbit c n), (Z.testbit p n), (Z.testbit m n);
    simpl in *; congruence.
Qed.

Lemma land_ldiff_outside (c p m : Z) :
  Z.land p m = 0 -> Z.land (Z.ldiff c p) m = Z.land c m.
Proof.
  intros H. apply Z.bits_inj'. intros n Hn.
  assert (Hb : Z.testbit (Z.land p m) n = false) by (rewrite H; apply Z.bits_0).
  rewrite Z.land_spec in Hb. rewrite !Z.land_spec, Z.ldiff_spec.
  destruct (Z.testbit c n), (Z.testbit p n), (Z.testbit m n);
    simpl in *; congruence.
Qed.

Lemma land_lor_outside (c p m : Z) :
  Z.land p m = 0 -> Z.land (Z.lor c p) m = Z.land c m.
Proof.
  intros H. apply Z.bits_inj'. intros n Hn.
  assert (Hb : Z.testbit (Z.land p m) n = false) by (rewrite H; apply Z.bits_0).
  rewrite Z.land_spec in Hb. rewrite !Z.land_spec, Z.lor_spec.
  destruct (Z.testbit c n), (Z.testbit p n), (Z.testbit m n);
    simpl in *; congruence.
Qed.

Lemma land_ldiff_same (c m : Z) : Z.land (Z.ldiff c m) m = 0.
Proof.
  apply Z.bits_inj'. intros n Hn.
  rewrite Z.land_spec, Z.ldiff_spec, Z.bits_0.
  destruct (Z.testbit c n), (Z.testbit m n); reflexivity.
Qed.

(** The parity and stop bits the two switches of [SetParity] leave. *)
Lemma parity_switch_bits (parity : string) (t t1 : Termios) :
  parity_switch parity
    (Cflag_andnot (Z.lor (Z.lor PARENB PARODD) CMSPAR) t) = Some t1 ->
  parity_bits t1 = mode_bits parity /\ SetParity_parity parity = true.
Proof.
  unfold parity_switch, mode_bits, SetParity_parity, parity_bits.
  cbn [existsb].
  repeat match goal with
         | |- context [String.eqb parity ?c] => destruct (String.eqb parity c)
         end;
    intros H; try discriminate H; injection H as <-; cbn [orb];
    (split; [|reflexivity]); cbn [Cflag Cflag_or Cflag_andnot with_Cflag];
    first [apply land_ldiff_same | apply land_lor_ldiff; reflexivity].
Qed.

Lemma stopbits_switch_bits (stopbits : Z) (t t2 : Termios) :
  stopbits_switch stopbits (Cflag_andnot CSTOPB t) = Some t2 ->
  parity_bits t2 = parity_bits t /\
  Z.land (Cflag t2) CSTOPB = (if stopbits =? 2 then CSTOPB else 0) /\
  valid_stopbits stopbits = true.
Proof.
  unfold stopbits_switch, valid_stopbits, parity_bits.
  destruct (Z.eqb_spec stopbits 0) as [->|H0];
    [|destruct (Z.eqb_spec stopbits 1) as [->|H1];
      [|destruct (Z.eqb_spec stopbits 2) as [->|H2]]];
    cbn [orb Z.eqb]; intros H; try discriminate H; injection H as <-;
    cbn [Cflag Cflag_or Cflag_andnot with_Cflag].
  - split; [apply land_ldiff_outside; reflexivity|].
    split; [apply land_ldiff_same|reflexivity].
  - split; [apply land_ldiff_outside; reflexivity|].
    split; [apply land_ldiff_same|reflexivity].
  - split.
    + rewrite land_lor_outside by reflexivity.
      apply land_ldiff_outside. reflexivity.
    + split; [|reflexivity]. apply land_lor_ldiff. reflexivity.
Qed.

Section SetParityBits.

Context {W : Type} {os : OS W}.

(** X8: whatever settings were fetched, the settings [SetParity] writes
    have exactly the parity bits of the requested mode (none for "N",
    enable for "E", enable and odd for "O", enable and space-marking for
    "S", all three for "M") and the two-stop-bits bit exactly when 2 stop
    bits were requested; a write is only made for these five modes with
    0, 1 or 2 stop bits. *)
Theorem SetParity_written_bits (s : serialPort) (w : W) (parity : string)
    (stopbits : Z) (d : Z) (t' : Termios) :
  opened s = true ->
  In (SysTcsets d t')
     (trace (snd (Linux.SetParity parity stopbits (start s w)))) ->
  parity_bits t' = mode_bits parity /\
  Z.land (Cflag t') CSTOPB = (if stopbits =? 2 then CSTOPB else 0) /\
  SetParity_parity parity = true /\ valid_stopbits stopbits = true.
Proof.
  intros Ho. rewrite (SetParity_open s w parity stopbits Ho). cbv zeta.
  destruct (negb _); cbn [snd trace].
  { intros [H|[]]. discriminate H. }
  destruct (parity_switch parity _) as [t1|] eqn:Hp; cbn [snd trace].
  2:{ intros [H|[]]. discriminate H. }
  destruct (stopbits_switch stopbits _) as [t2|] eqn:Hs; cbn [snd trace].
  2:{ intros [H|[]]. discriminate H. }
  destruct (parity_switch_bits _ _ _ Hp) as [Hpb Hpv].
  destruct (stopbits_switch_bits _ _ _ Hs) as (Hsp & Hsb & Hsv).
  assert (Hin : In (SysTcsets d t') [SysTcsets (fd s) t2; SysTcgets (fd s)] ->
                t' = t2).
  { intros [H|[H|[]]]; [|discriminate H]. injection H as _ <-. reflexivity. }
  destruct (negb _); cbn [snd trace]; intros H; apply Hin in H; subst t';
    rewrite Hsp, Hpb; auto.
Qed.

(** X9: on an open handle whose settings can be fetched, [SetParity]
    answers a parity other than "N", "E", "O", "S", "M" (so also "G",
    which the translator accepts) with the parity error, and one of
    these with stop bits other than 0, 1, 2 with the stop-bits error;
    in both cases the settings were fetched from the device before the
    arguments were looked at, nothing is written, and the handle is as
    it was. *)
Theorem SetParity_rejects (s : serialPort) (w : W) (parity : string)
    (stopbits : Z) (t : Termios) (w1 : W) :
  opened s = true ->
  os_tcgets (fd s) Termios_zero w = (t, 0, w1) ->
  (SetParity_parity parity = false ->
   Linux.SetParity parity stopbits (start s w) =
   (Some (Errorf "invalid or not supported parity" []),
    mkState s w1 [SysTcgets (fd s)])) /\
  (SetParity_parity parity = true -> valid_stopbits stopbits = false ->
   Linux.SetParity parity stopbits (start s w) =
   (Some (Errorf "invalid or not supported stop bits" []),
    mkState s w1 [SysTcgets (fd s)])).
Proof.
  intros Ho Hg. rewrite (SetParity_open s w parity stopbits Ho). cbv zeta.
  rewrite Hg. cbn [fst snd Z.eqb negb].
  split.
  - intros Hp.
    destruct (parity_switch parity _) as [t1|] eqn:E; [|reflexivity].
    apply parity_switch_bits in E. destruct E as [_ E]. congruence.
  - intros Hp Hs.
    destruct (parity_switch parity _) as [t1|] eqn:E.
    + destruct (stopbits_switch stopbits _) as [t2|] eqn:E2; [|reflexivity].
      apply stopbits_switch_bits in E2. destruct E2 as (_ & _ & E2).
      congruence.
    + exfalso. revert E. apply parity_switch_accepts, Hp.
Qed.

End SetParityBits.

Lemma SetParity_written_bits_witness :
  parity_bits
    (Cflag_or CSTOPB
       (Cflag_andnot CSTOPB
          (Cflag_or (Z.lor PARENB PARODD)
             (Cflag_andnot (Z.lor (Z.lor PARENB PARODD) CMSPAR)
                (fst (tcgets_answer healthy)))))) = mode_bits "O" /\
  Z.land (Cflag
    (Cflag_or CSTOPB
       (Cflag_andnot CSTOPB
          (Cflag_or (Z.lor PARENB PARODD)
             (Cflag_andnot (Z.lor (Z.lor PARENB PARODD) CMSPAR)
                (fst (tcgets_answer healthy))))))) CSTOPB =
  (if 2 =? 2 then CSTOPB else 0) /\
  SetParity_parity "O" = true /\ valid_stopbits 2 = true.
Proof.
  apply (SetParity_written_bits (open_port 0) healthy "O" 2 3).
  - reflexivity.
  - left. reflexivity.
Defined.

Lemma SetParity_rejects_witness :
  Linux.SetParity "G" 1 (start (open_port 0) healthy) =
  (Some (Errorf "invalid or not supported parity" []),
   mkState (open_port 0) healthy [SysTcgets 3]).
Proof.
  exact (proj1 (SetParity_rejects (open_port 0) healthy "G" 1
                  (fst (tcgets_answer healthy)) healthy eq_refl eq_refl)
           eq_refl).
Defined.

(** ** The translator: stop bits, flow control, raw mode *)

(** What the translator produces from a configuration it accepts, for
    the bits outside parity and rate. *)
Lemma getTermiosFor_valid_rest (name : string) (b rt sb fl : Z) (p : string) :
  valid_stopbits sb = true -> valid_flow fl = true ->
  In p ["N"; "E"; "O"; "S"; "M"; "G"]%string ->
  let t := fst (Linux.getTermiosFor (mkConfig name b rt p sb fl)) in
  Z.land (Cflag t) CSTOPB = (if sb =? 2 then CSTOPB else 0) /\
  Z.land (Cflag t) CRTSCTS = (if fl =? FlowHardware then CRTSCTS else 0) /\
  Z.land (Iflag t) (Z.lor IXON IXOFF) =
    (if fl =? FlowSoft then Z.lor IXON IXOFF else 0) /\
  Z.land (Cflag t) (Z.lor (Z.lor CREAD CLOCAL) CSIZE) =
    Z.lor (Z.lor CREAD CLOCAL) CS8 /\
  Oflag t = 0 /\ Lflag t = 0 /\ Line t = 0 /\ Cc t = replicate 19 0.
Proof.
  intros Hs Hf Hp. unfold valid_stopbits, valid_flow in *.
  pose proof (resolved_baud_encoding b) as Hb. fold (resolved_baud b) in Hb.
  unfold Linux.getTermiosFor. cbn [Baud Parity StopBits Flow ReadTimeout].
  fold (resolved_baud b). revert Hb. generalize (resolved_baud b).
  intros v Hb. cbn [In] in Hp.
  repeat (destruct Hp as [<-|Hp]); try contradiction;
    split_valid; destruct (rt =? 0); cbn;
    float_baud v Hb;
    rewrite !Z.land_lor_distr_l,
      ?(baud_encoding_disjoint v CSTOPB Hb),
      ?(baud_encoding_disjoint v CRTSCTS Hb),
      ?(baud_encoding_disjoint v (Z.lor (Z.lor CREAD CLOCAL) CSIZE) Hb)
      by reflexivity;
    repeat split; vm_compute; reflexivity.
Qed.

(** The three configuration errors, in the order the translator looks
    for them. *)
Lemma getTermiosFor_bad_parity (name : string) (b rt sb fl : Z) (p : string) :
  valid_parity p = false ->
  Linux.getTermiosFor (mkConfig name b rt p sb fl) =
  (Termios_zero, Some (Errorf "invalid or not supported parity" [])).
Proof.
  intros Hp. unfold valid_parity in Hp. cbn [existsb] in Hp.
  split_valid. unfold Linux.getTermiosFor. cbn [Parity].
  repeat match goal with
         | H : (_ =? _)%string = false |- _ => rewrite H; clear H
         end.
  reflexivity.
Qed.

Lemma getTermiosFor_bad_stopbits (name : string) (b rt sb fl : Z)
    (p : string) :
  valid_parity p = true -> valid_stopbits sb = false ->
  Linux.getTermiosFor (mkConfig name b rt p sb fl) =
  (Termios_zero, Some (Errorf "invalid or not supported stop bits" [])).
Proof.
  intros Hp Hs. apply valid_parity_In in Hp.
  unfold valid_stopbits in Hs. split_valid.
  unfold Linux.getTermiosFor. cbn [Parity StopBits].
  rewrite H, H0, Hs. cbn [orb]. cbn [In] in Hp.
  repeat (destruct Hp as [<-|Hp]); try contradiction; reflexivity.
Qed.

Lemma getTermiosFor_bad_flow (name : string) (b rt sb fl : Z) (p : string) :
  valid_parity p = true -> valid_stopbits sb = true ->
  valid_flow fl = false ->
  Linux.getTermiosFor (mkConfig name b rt p sb fl) =
  (Termios_zero, Some (Errorf "invalid or not supported flow control" [])).
Proof.
  intros Hp Hs Hf. apply valid_parity_In in Hp.
  unfold valid_stopbits, valid_flow in *.
  apply orb_false_iff in Hf. destruct Hf as [Hf Hf2].
  apply orb_false_iff in Hf. destruct Hf as [Hf0 Hf1].
  unfold Linux.getTermiosFor. cbn [Parity StopBits Flow].
  rewrite Hf0, Hf1, Hf2. cbn [In] in Hp.
  repeat (destruct Hp as [<-|Hp]); try contradiction;
    split_valid; reflexivity.
Qed.

(** A configuration with a symbol the translator does not accept gets an
    error and the zero settings. *)
Lemma getTermiosFor_rejects (cfg : Config) :
  valid_parity (Parity cfg) && valid_stopbits (StopBits cfg) &&
  valid_flow (Flow cfg) = false ->
  fst (Linux.getTermiosFor cfg) = Termios_zero /\
  snd (Linux.getTermiosFor cfg) <> None.
Proof.
  destruct cfg as [name b rt p sb fl]. cbn [Parity StopBits Flow].
  intros H.
  destruct (valid_parity p) eqn:Hp.
  - destruct (valid_stopbits sb) eqn:Hs.
    + cbn [andb] in H.
      rewrite (getTermiosFor_bad_flow name b rt sb fl p Hp Hs H).
      split; [reflexivity|discriminate].
    + rewrite (getTermiosFor_bad_stopbits name b rt sb fl p Hp Hs).
      split; [reflexivity|discriminate].
  - rewrite (getTermiosFor_bad_parity name b rt sb fl p Hp).
    split; [reflexivity|discriminate].
Qed.

(** X10: for an accepted parity, stop bits other than 0, 1, 2 give the
    stop-bits error and a flow other than none, hardware, software gives
    the flow error, each with the zero settings; otherwise the
    two-stop-bits bit is set exactly for 2 stop bits (0 counts as 1), the
    RTS/CTS bit exactly for hardware flow and the XON/XOFF input bits
    exactly for software flow. *)
Theorem getTermiosFor_stopbits_flow (cfg : Config) :
  valid_parity (Parity cfg) = true ->
  (valid_stopbits (StopBits cfg) = false ->
   Linux.getTermiosFor cfg =
   (Termios_zero, Some (Errorf "invalid or not supported stop bits" []))) /\
  (valid_stopbits (StopBits cfg) = true -> valid_flow (Flow cfg) = false ->
   Linux.getTermiosFor cfg =
   (Termios_zero, Some (Errorf "invalid or not supported flow control" []))) /\
  (valid_stopbits (StopBits cfg) = true -> valid_flow (Flow cfg) = true ->
   let t := fst (Linux.getTermiosFor cfg) in
   Z.land (Cflag t) CSTOPB = (if StopBits cfg =? 2 then CSTOPB else 0) /\
   Z.land (Cflag t) CRTSCTS =
     (if Flow cfg =? FlowHardware then CRTSCTS else 0) /\
   Z.land (Iflag t) (Z.lor IXON IXOFF) =
     (if Flow cfg =? FlowSoft then Z.lor IXON IXOFF else 0)).
Proof.
  destruct cfg as [name b rt p sb fl]. cbn [Parity StopBits Flow].
  intros Hp. repeat apply conj.
  - intros Hs. exact (getTermiosFor_bad_stopbits name b rt sb fl p Hp Hs).
  - intros Hs Hf. exact (getTermiosFor_bad_flow name b rt sb fl p Hp Hs Hf).
  - intros Hs Hf.
    destruct (getTermiosFor_valid_rest name b rt sb fl p Hs Hf
                (valid_parity_In p Hp)) as (H1 & H2 & H3 & _).
    repeat split; assumption.
Qed.

Lemma getTermiosFor_stopbits_flow_witness :
  Linux.getTermiosFor (mkConfig "/dev/ttyS0" 9600 0 "E" 3 0) =
  (Termios_zero, Some (Errorf "invalid or not supported stop bits" [])) /\
  Linux.getTermiosFor (mkConfig "/dev/ttyS0" 9600 0 "E" 2 7) =
  (Termios_zero, Some (Errorf "invalid or not supported flow control" [])) /\
  Z.land (Cflag (fst (Linux.getTermiosFor
                        (mkConfig "/dev/ttyS0" 9600 0 "E" 2 1)))) CRTSCTS =
  CRTSCTS.
Proof.
  split; [|split].
  - exact (proj1 (getTermiosFor_stopbits_flow
                    (mkConfig "/dev/ttyS0" 9600 0 "E" 3 0) eq_refl) eq_refl).
  - exact (proj1 (proj2 (getTermiosFor_stopbits_flow
                           (mkConfig "/dev/ttyS0" 9600 0 "E" 2 7) eq_refl))
             eq_refl eq_refl).
  - exact (proj1 (proj2 (proj2 (proj2 (getTermiosFor_stopbits_flow
             (mkConfig "/dev/ttyS0" 9600 0 "E" 2 1) eq_refl))
             eq_refl eq_refl))).
Defined.

(** X11: every configuration the translator accepts gets the receiver
    enabled, modem lines ignored and 8-bit characters, no output or local
    processing, and all nineteen control characters at 0: [VMIN] and
    [VTIME] are 0 whether or not a read timeout is configured. *)
Theorem getTermiosFor_raw (cfg : Config) :
  valid_parity (Parity cfg) = true ->
  valid_stopbits (StopBits cfg) = true ->
  valid_flow (Flow cfg) = true ->
  let t := fst (Linux.getTermiosFor cfg) in
  Z.land (Cflag t) (Z.lor (Z.lor CREAD CLOCAL) CSIZE) =
    Z.lor (Z.lor CREAD CLOCAL) CS8 /\
  Oflag t = 0 /\ Lflag t = 0 /\ Line t = 0 /\ Cc t = replicate 19 0 /\
  Cc t !! Z.to_nat VMIN = Some 0 /\ Cc t !! Z.to_nat VTIME = Some 0.
Proof.
  destruct cfg as [name b rt p sb fl]. cbn [Parity StopBits Flow].
  intros Hp Hs Hf. apply valid_parity_In in Hp.
  destruct (getTermiosFor_valid_rest name b rt sb fl p Hs Hf Hp)
    as (_ & _ & _ & H4 & H5 & H6 & H7 & H8).
  cbv zeta. rewrite H8. repeat split; assumption.
Qed.

Lemma getTermiosFor_raw_witness :
  Cc (fst (Linux.getTermiosFor (mkConfig "/dev/ttyS0" 9600 200 "N" 1 0))) =
  replicate 19 0.
Proof.
  exact (proj1 (proj2 (proj2 (proj2 (proj2 (getTermiosFor_raw
           (mkConfig "/dev/ttyS0" 9600 200 "N" 1 0)
           eq_refl eq_refl eq_refl)))))).
Defined.

(** Setting [VMIN] to 0 where the control characters are all 0 changes
    nothing. *)
Lemma Cc_set_VMIN_zero (t : Termios) :
  Cc t = replicate 19 0 -> Cc_set VMIN 0 t = t.
Proof. destruct t. cbn. intros ->. reflexivity. Qed.

Ltac keep_Cc H :=
  cbn [Cc Cflag_or Cflag_andnot Iflag_or Iflag_andnot with_Cflag with_Iflag
       with_Ispeed with_Ospeed];
  exact H.

(** X12: the device name and the read timeout have no part in the
    translation: two configurations that differ only in them give the
    same settings and the same error. *)
Theorem getTermiosFor_ignores_name_timeout (name : string) (timeout : Z)
    (cfg : Config) :
  Linux.getTermiosFor (with_name_timeout name timeout cfg) =
  Linux.getTermiosFor cfg.
Proof.
  destruct cfg as [name0 b rt p sb fl].
  unfold with_name_timeout, Linux.getTermiosFor.
  cbn [Name Baud ReadTimeout Parity StopBits Flow].
  match goal with
  | |- context [String.eqb p "N"] =>
    match goal with
    | |- context [if String.eqb p "N" then Some ?t else _] =>
      assert (H0 : Cc t = replicate 19 0) by reflexivity;
      generalize dependent t; intros t0 H0
    end
  end.
  match goal with
  | |- match ?x with Some _ => _ | None => _ end = _ =>
    destruct x as [t1|] eqn:E1; [|reflexivity]
  end.
  assert (H1 : Cc (Cflag_andnot CSTOPB t1) = replicate 19 0).
  { revert E1.
    repeat match goal with
           | |- context [String.eqb p ?c] => destruct (String.eqb p c)
           end; intros E; try discriminate E; injection E as <-; keep_Cc H0. }
  clear E1. generalize dependent (Cflag_andnot CSTOPB t1).
  clear t0 H0 t1. intros t1 H1.
  match goal with
  | |- match ?x with Some _ => _ | None => _ end = _ =>
    destruct x as [t2|] eqn:E2; [|reflexivity]
  end.
  assert (H2 : Cc (Iflag_andnot (Z.lor IXON IXOFF) (Cflag_andnot CRTSCTS t2))
               = replicate 19 0).
  { revert E2. destruct (_ || _); [|destruct (sb =? 2)];
      intros E; try discriminate E; injection E as <-; keep_Cc H1. }
  clear E2. generalize dependent (Iflag_andnot (Z.lor IXON IXOFF)
                                    (Cflag_andnot CRTSCTS t2)).
  clear t1 H1 t2. intros t2 H2.
  match goal with
  | |- match ?x with Some _ => _ | None => _ end = _ =>
    destruct x as [t3|] eqn:E3; [|reflexivity]
  end.
  assert (H3 : Cc t3 = replicate 19 0).
  { revert E3.
    destruct (fl =? FlowNone);
      [|destruct (fl =? FlowSoft); [|destruct (fl =? FlowHardware)]];
      intros E; try discriminate E; injection E as <-; keep_Cc H2. }
  rewrite (Cc_set_VMIN_zero t3 H3).
  destruct (timeout =? 0), (rt =? 0); reflexivity.
Qed.

(** ** The table of rates *)

Lemma baudRates_pair (b v : Z) :
  Linux.baudRates !! b = Some v -> In (b, v) (map_to_list Linux.baudRates).
Proof. intros H. apply list_elem_of_In, elem_of_map_to_list, H. Qed.

(** No two rates of the table share an encoding, and no encoding is 0. *)
Lemma baudRates_injective (b1 b2 v : Z) :
  Linux.baudRates !! b1 = Some v -> Linux.baudRates !! b2 = Some v ->
  b1 = b2.
Proof.
  intros H1 H2. apply baudRates_pair in H1, H2.
  assert (H : forallb (fun x => forallb (fun y =>
                implb (snd x =? snd y) (fst x =? fst y))
                (map_to_list Linux.baudRates))
                (map_to_list Linux.baudRates) = true)
    by (vm_compute; reflexivity).
  rewrite forallb_forall in H. specialize (H _ H1).
  rewrite forallb_forall in H. specialize (H _ H2).
  cbn [fst snd] in H. rewrite Z.eqb_refl in H. apply Z.eqb_eq, H.
Qed.

Lemma baudRates_nonzero (b v : Z) :
  Linux.baudRates !! b = Some v -> v <> 0.
Proof.
  intros H1. apply baudRates_pair in H1.
  assert (H : forallb (fun x => negb (snd x =? 0))
                (map_to_list Linux.baudRates) = true)
    by (vm_compute; reflexivity).
  rewrite forallb_forall in H. specialize (H _ H1). cbn [snd] in H.
  apply negb_true_iff, Z.eqb_neq in H. exact H.
Qed.

(** X13: the speed an accepted configuration is translated to tells the
    requested rate: two rates of the table with the same speed field are
    the same rate, and the speed field is 0 exactly when the requested
    rate is neither 0 nor in the table. *)
Theorem getTermiosFor_speed_decodes (c1 c2 : Config) :
  valid_parity (Parity c1) = true -> valid_stopbits (StopBits c1) = true ->
  valid_flow (Flow c1) = true ->
  valid_parity (Parity c2) = true -> valid_stopbits (StopBits c2) = true ->
  valid_flow (Flow c2) = true ->
  (is_Some (Linux.baudRates !! Baud c1) ->
   is_Some (Linux.baudRates !! Baud c2) ->
   Ispeed (fst (Linux.getTermiosFor c1)) =
   Ispeed (fst (Linux.getTermiosFor c2)) ->
   Baud c1 = Baud c2) /\
  (Ispeed (fst (Linux.getTermiosFor c1)) = 0 <->
   Baud c1 <> 0 /\ Linux.baudRates !! Baud c1 = None).
Proof.
  destruct c1 as [n1 b1 rt1 p1 sb1 fl1], c2 as [n2 b2 rt2 p2 sb2 fl2].
  cbn [Baud Parity StopBits Flow]. intros Hp1 Hs1 Hf1 Hp2 Hs2 Hf2.
  destruct (getTermiosFor_valid n1 b1 rt1 sb1 fl1 p1 Hs1 Hf1
              (valid_parity_In p1 Hp1)) as (_ & Hi1 & _).
  destruct (getTermiosFor_valid n2 b2 rt2 sb2 fl2 p2 Hs2 Hf2
              (valid_parity_In p2 Hp2)) as (_ & Hi2 & _).
  cbv zeta in Hi1, Hi2. rewrite Hi1, Hi2. unfold resolved_baud. split.
  - intros [v1 Hv1] [v2 Hv2].
    destruct (Z.eqb_spec b1 0) as [->|_];
      [rewrite baudRates_zero in Hv1; discriminate|].
    destruct (Z.eqb_spec b2 0) as [->|_];
      [rewrite baudRates_zero in Hv2; discriminate|].
    rewrite Hv1, Hv2. intros <-.
    exact (baudRates_injective _ _ _ Hv1 Hv2).
  - destruct (Z.eqb_spec b1 0) as [->|Hb].
    + split; [discriminate|]. intros [H _]. contradiction H. reflexivity.
    + destruct (Linux.baudRates !! b1) as [v|] eqn:E.
      * split; [|intros [_ H]; discriminate H].
        intros H0. exfalso. exact (baudRates_nonzero _ _ E H0).
      * split; [intros _; split; [exact Hb|reflexivity]|reflexivity].
Qed.

Lemma getTermiosFor_speed_decodes_witness :
  Ispeed (fst (Linux.getTermiosFor (mkConfig "/dev/ttyS0" 12345 0 "N" 1 0)))
  = 0 <->
  12345 <> 0 /\ Linux.baudRates !! 12345 = None.
Proof.
  exact (proj2 (getTermiosFor_speed_decodes
                  (mkConfig "/dev/ttyS0" 12345 0 "N" 1 0)
                  (mkConfig "/dev/ttyS0" 9600 0 "N" 1 0)
                  eq_refl eq_refl eq_refl eq_refl eq_refl eq_refl)).
Defined.

(** X14: a requested rate of 0 is translated exactly as a requested rate
    of 19200, for every configuration. *)
Theorem getTermiosFor_default_is_19200 (cfg : Config) :
  Linux.getTermiosFor (with_Baud 0 cfg) =
  Linux.getTermiosFor (with_Baud 19200 cfg).
Proof.
  destruct cfg as [name b rt p sb fl].
  unfold with_Baud, Linux.getTermiosFor.
  cbn [Name Baud ReadTimeout Parity StopBits Flow].
  change (if 0 =? 0 then B19200
          else match Linux.baudRates !! 0 with
               | Some value => value
               | None => 0
               end) with B19200.
  replace (if 19200 =? 0 then B19200
           else match Linux.baudRates !! 19200 with
                | Some value => value
                | None => 0
                end) with B19200 by (vm_compute; reflexivity).
  reflexivity.
Qed.

(** ** The lifecycle, beyond the failures *)

Section LifecycleMore.

Context {W : Type} {os : OS W}.

Lemma lsof_run (name : string) (st : state W) :
  lsof name st =
  (fst (os_lsof name (world st)),
   mkState (port st) (snd (os_lsof name (world st)))
     (SysLsof name :: trace st)).
Proof.
  unfold lsof, sys. destruct (os_lsof name (world st)). reflexivity.
Qed.

Lemma unix_Open_run (name : string) (flags perm : Z) (st : state W) :
  unix_Open name flags perm st =
  (fst (fst (os_open name flags perm (world st))),
   errnoErr (snd (fst (os_open name flags perm (world st)))),
   mkState (port st) (snd (os_open name flags perm (world st)))
     (SysOpen name flags perm :: trace st)).
Proof.
  unfold unix_Open, bind, ret, sys.
  destruct (os_open name flags perm (world st)) as [[d e] w']. reflexivity.
Qed.

Lemma unix_SetNonblock_run (d : Z) (b : bool) (st : state W) :
  unix_SetNonblock d b st =
  (errnoErr (fst (os_setnonblock d b (world st))),
   mkState (port st) (snd (os_setnonblock d b (world st)))
     (SysSetNonblock d b :: trace st)).
Proof.
  unfold unix_SetNonblock, bind, ret, sys.
  destruct (os_setnonblock d b (world st)). reflexivity.
Qed.

(** [Open], by the answers of the probe, of [open] and of the request
    for exclusive access; on an open handle all this happens in the state
    [Close] leaves. *)
Lemma Open_run (name : string) (st : state W) :
  Linux.Open name st =
  let st1 := if opened (port st) then snd (Linux.Close st) else st in
  let r0 := os_lsof name (world st1) in
  let tr0 := SysLsof name :: trace st1 in
  match fst r0 with
  | None => (Some ErrAlreadyOpen, mkState (port st1) (snd r0) tr0)
  | Some msg =>
    if negb (String.eqb msg "exit status 1")
    then (Some ErrAccessDenied, mkState (port st1) (snd r0) tr0)
    else
      let r1 := os_open name open_flags 0 (snd r0) in
      let tr1 := SysOpen name open_flags 0 :: tr0 in
      if negb (snd (fst r1) =? 0)
      then (Some (Errno (snd (fst r1))), mkState (port st1) (snd r1) tr1)
      else
        let d := fst (fst r1) in
        let r2 := os_ioctl d TIOCEXCL 0 (snd r1) in
        (if negb (fst r2 =? 0)
         then Some (Errorf "failed to get exclusive access - %v"
                      [Errno (fst r2)])
         else None,
         mkState (mkPort d true (conf (port st1))) (snd r2)
           (SysIoctl d TIOCEXCL 0 :: tr1))
  end.
Proof.
  unfold Linux.Open. unfold bind at 1. unfold get_s at 1.
  unfold bind at 1.
  assert (Hfirst :
    (if opened (port st) then (_ <- Linux.Close ;; ret tt)%go else ret tt) st =
    (tt, if opened (port st) then snd (Linux.Close st) else st)).
  { destruct (opened (port st)); [|reflexivity].
    unfold bind, ret. destruct (Linux.Close st). reflexivity. }
  rewrite Hfirst. cbv zeta.
  generalize (if opened (port st) then snd (Linux.Close st) else st).
  clear Hfirst st. intros st.
  unfold bind at 1. rewrite lsof_run. fold open_flags.
  destruct (fst (os_lsof name (world st))) as [msg|]; [|reflexivity].
  destruct (negb (String.eqb msg "exit status 1")); [reflexivity|].
  unfold bind at 1. rewrite unix_Open_run. cbn [fst snd port world trace].
  unfold errnoErr.
  destruct (snd (fst (os_open name open_flags 0
                        (snd (os_lsof name (world st))))) =? 0);
    [|reflexivity].
  cbn [negb]. unfold defer, set_fd, set_opened, set_s, get_s.
  unfold bind, ret. cbn [port world trace]. rewrite unix_ioctl_run.
  cbn [fst snd port world trace].
  destruct (negb _); rewrite auto_close_nil; reflexivity.
Qed.

Lemma Open_closed (name : string) (st : state W) :
  opened (port st) = false ->
  Linux.Open name st =
  let r0 := os_lsof name (world st) in
  let tr0 := SysLsof name :: trace st in
  match fst r0 with
  | None => (Some ErrAlreadyOpen, mkState (port st) (snd r0) tr0)
  | Some msg =>
    if negb (String.eqb msg "exit status 1")
    then (Some ErrAccessDenied, mkState (port st) (snd r0) tr0)
    else
      let r1 := os_open name open_flags 0 (snd r0) in
      let tr1 := SysOpen name open_flags 0 :: tr0 in
      if negb (snd (fst r1) =? 0)
      then (Some (Errno (snd (fst r1))), mkState (port st) (snd r1) tr1)
      else
        let d := fst (fst r1) in
        let r2 := os_ioctl d TIOCEXCL 0 (snd r1) in
        (if negb (fst r2 =? 0)
         then Some (Errorf "failed to get exclusive access - %v"
                      [Errno (fst r2)])
         else None,
         mkState (mkPort d true (conf (port st))) (snd r2)
           (SysIoctl d TIOCEXCL 0 :: tr1))
  end.
Proof. intros Hc. rewrite Open_run, Hc. reflexivity. Qed.

(** X15: on a handle that is not open, [Open] first asks [lsof] who holds
    the device.  When [lsof] finds a holder it returns [ErrAlreadyOpen];
    when [lsof] fails in any way other than exit status 1 it returns
    [ErrAccessDenied]; in both cases [open] is not called.  When [open]
    fails, its errno is returned as it is and the handle stays unopened.
    When [open] and the request for exclusive access succeed, the handle
    is open on the descriptor. *)
Theorem Open_outcomes (name : string) (st : state W) :
  opened (port st) = false ->
  (forall w1, os_lsof name (world st) = (None, w1) ->
     Linux.Open name st =
     (Some ErrAlreadyOpen,
      mkState (port st) w1 (SysLsof name :: trace st))) /\
  (forall msg w1, os_lsof name (world st) = (Some msg, w1) ->
     msg <> "exit status 1"%string ->
     Linux.Open name st =
     (Some ErrAccessDenied,
      mkState (port st) w1 (SysLsof name :: trace st))) /\
  (forall w1 d e w2,
     os_lsof name (world st) = (Some "exit status 1"%string, w1) ->
     os_open name open_flags 0 w1 = (d, e, w2) -> e <> 0 ->
     Linux.Open name st =
     (Some (Errno e),
      mkState (port st) w2
        (SysOpen name open_flags 0 :: SysLsof name :: trace st))) /\
  (forall w1 d w2 w3,
     os_lsof name (world st) = (Some "exit status 1"%string, w1) ->
     os_open name open_flags 0 w1 = (d, 0, w2) ->
     os_ioctl d TIOCEXCL 0 w2 = (0, w3) ->
     Linux.Open name st =
     (None,
      mkState (mkPort d true (conf (port st))) w3
        (SysIoctl d TIOCEXCL 0 :: SysOpen name open_flags 0 ::
         SysLsof name :: trace st))).
Proof.
  intros Hc. rewrite (Open_closed name st Hc). cbv zeta.
  repeat apply conj.
  - intros w1 H0. rewrite H0. reflexivity.
  - intros msg w1 H0 Hm. rewrite H0. cbn [fst snd].
    destruct (String.eqb_spec msg "exit status 1"); [contradiction|].
    reflexivity.
  - intros w1 d e w2 H0 H1 He. rewrite H0. cbn [fst snd].
    change (negb (String.eqb "exit status 1" "exit status 1")) with false.
    cbv iota. rewrite H1. cbn [fst snd].
    destruct (Z.eqb_spec e 0); [contradiction|]. reflexivity.
  - intros w1 d w2 w3 H0 H1 H2. rewrite H0. cbn [fst snd].
    change (negb (String.eqb "exit status 1" "exit status 1")) with false.
    cbv iota. rewrite H1. cbn [fst snd Z.eqb negb]. rewrite H2.
    reflexivity.
Qed.

(** X16: [Open] on a handle that is already open is [Close] followed by
    [Open]: the old descriptor is given up first, and whatever [Close]
    answers is ignored. *)
Theorem Open_reopens (name : string) (st : state W) :
  opened (port st) = true ->
  Linux.Open name st = Linux.Open name (snd (Linux.Close st)).
Proof.
  intros Ho.
  assert (Hc : opened (port (snd (Linux.Close st))) = false).
  { rewrite (Close_open st Ho). cbv zeta. destruct (negb _); reflexivity. }
  rewrite (Open_run name st), (Open_run name (snd (Linux.Close st))).
  rewrite Ho, Hc. reflexivity.
Qed.

(** X17: a second [Close] returns [ErrPortNotInitialized] and changes
    nothing, whatever the first one did. *)
Theorem Close_twice (st : state W) :
  Linux.Close (snd (Linux.Close st)) =
  (Some ErrPortNotInitialized, snd (Linux.Close st)).
Proof.
  assert (Hclosed : forall st0 : state W, opened (port st0) = false ->
            Linux.Close st0 = (Some ErrPortNotInitialized, st0)).
  { intros st0 H. unfold Linux.Close, bind, get_s, ret. rewrite H.
    reflexivity. }
  apply Hclosed.
  destruct (opened (port st)) eqn:Ho.
  - rewrite (Close_open st Ho). cbv zeta. destruct (negb _); reflexivity.
  - rewrite (Hclosed st Ho). exact Ho.
Qed.

End LifecycleMore.

Section OpenPort.

Context {W : Type} {os : OS W}.

(** X18: a configuration with a parity, stop-bit count or flow mode the
    translator does not accept is refused by [openPort] with the
    translator's error and a [nil] handle before any call to the
    operating system: no probe, no [open]. *)
Theorem openPort_rejects_config (cfg : Config) (st : state W) :
  valid_parity (Parity cfg) && valid_stopbits (StopBits cfg) &&
  valid_flow (Flow cfg) = false ->
  snd (Linux.getTermiosFor cfg) <> None /\
  Linux.openPort cfg st =
  (Linux.nil_Port, snd (Linux.getTermiosFor cfg),
   mkState serialPort_zero (world st) (trace st)).
Proof.
  intros H. destruct (getTermiosFor_rejects cfg H) as [_ He].
  split; [exact He|].
  unfold Linux.openPort, bind, set_s, ret.
  destruct (snd (Linux.getTermiosFor cfg)); [reflexivity|].
  contradiction He. reflexivity.
Qed.

(** X19: when the translator accepts the configuration, [lsof] finds no
    holder and the four calls succeed, [openPort] returns the handle,
    open on the descriptor and holding the configuration, after exactly
    these calls in this order: the probe, [open] with the flags
    read/write, no controlling terminal, non-blocking and exclusive, the
    request for exclusive access, the write of the translated settings,
    and the switch to blocking mode. *)
Theorem openPort_success (cfg : Config) (st : state W) (t : Termios)
    (d : Z) (w1 w2 w3 w4 w5 : W) :
  Linux.getTermiosFor cfg = (t, None) ->
  os_lsof (Name cfg) (world st) = (Some "exit status 1"%string, w1) ->
  os_open (Name cfg) open_flags 0 w1 = (d, 0, w2) ->
  os_ioctl d TIOCEXCL 0 w2 = (0, w3) ->
  os_tcsets d t w3 = (0, w4) ->
  os_setnonblock d false w4 = (0, w5) ->
  Linux.openPort cfg st =
  (Linux.handle, None,
   mkState (mkPort d true cfg) w5
     (SysSetNonblock d false :: SysTcsets d t :: SysIoctl d TIOCEXCL 0 ::
      SysOpen (Name cfg) open_flags 0 :: SysLsof (Name cfg) :: trace st)).
Proof.
  intros Hg H0 H1 H2 H3 H4.
  unfold Linux.openPort. unfold bind at 1. unfold set_s at 1.
  rewrite Hg. cbn [fst snd]. unfold bind at 1.
  rewrite Open_closed by reflexivity. cbv zeta. cbn [port world trace].
  rewrite H0. cbn [fst snd].
  change (negb (String.eqb "exit status 1" "exit status 1")) with false.
  cbv iota. rewrite H1. cbn [fst snd Z.eqb negb]. rewrite H2.
  cbn [fst snd Z.eqb negb].
  unfold bind at 1. unfold get_s at 1. unfold defer.
  unfold bind at 1. unfold bind at 1.
  rewrite SetTermios_open by reflexivity. cbv zeta.
  cbn [port world trace fd]. rewrite H3. cbn [fst snd Z.eqb negb].
  unfold set_conf, get_s, set_s. unfold bind, ret.
  cbn [port world trace fd opened conf].
  rewrite unix_SetNonblock_run. cbn [port world trace fd]. rewrite H4.
  cbn [fst snd errnoErr Z.eqb]. rewrite auto_close_nil. reflexivity.
Qed.

End OpenPort.

Lemma Open_outcomes_witness :
  Linux.Open "/dev/ttyUSB0" (start serialPort_zero healthy) =
  (None,
   mkState (mkPort 3 true Config_zero) healthy
     [SysIoctl 3 TIOCEXCL 0; SysOpen "/dev/ttyUSB0" open_flags 0;
      SysLsof "/dev/ttyUSB0"]).
Proof.
  exact (proj2 (proj2 (proj2 (Open_outcomes "/dev/ttyUSB0"
           (start serialPort_zero healthy) eq_refl)))
           healthy 3 healthy healthy eq_refl eq_refl eq_refl).
Defined.

Lemma Open_reopens_witness :
  Linux.Open "/dev/ttyUSB0" (start (open_port 0) healthy) =
  Linux.Open "/dev/ttyUSB0"
    (snd (Linux.Close (start (open_port 0) healthy))).
Proof. exact (Open_reopens "/dev/ttyUSB0" (start (open_port 0) healthy) eq_refl). Defined.

Lemma openPort_rejects_config_witness :
  Linux.openPort (mkConfig "/dev/ttyUSB0" 9600 0 "Z" 1 0)
    (start serialPort_zero healthy) =
  (Linux.nil_Port,
   snd (Linux.getTermiosFor (mkConfig "/dev/ttyUSB0" 9600 0 "Z" 1 0)),
   mkState serialPort_zero healthy []).
Proof.
  exact (proj2 (openPort_rejects_config (mkConfig "/dev/ttyUSB0" 9600 0 "Z" 1 0)
                  (start serialPort_zero healthy) eq_refl)).
Defined.

Lemma openPort_success_witness :
  Linux.openPort cfg_8N1 (start serialPort_zero healthy) =
  (Linux.handle, None,
   mkState (mkPort 3 true cfg_8N1) healthy
     [SysSetNonblock 3 false;
      SysTcsets 3 (fst (Linux.getTermiosFor cfg_8N1));
      SysIoctl 3 TIOCEXCL 0; SysOpen "/dev/ttyUSB0" open_flags 0;
      SysLsof "/dev/ttyUSB0"]).
Proof.
  exact (openPort_success cfg_8N1 (start serialPort_zero healthy)
           (fst (Linux.getTermiosFor cfg_8N1)) 3
           healthy healthy healthy healthy healthy
           eq_refl eq_refl eq_refl eq_refl eq_refl eq_refl).
Defined.

(** ** [openPort] on Darwin *)

Section DarwinOpenPort.

Context {W : Type} {os : OS W}.

Lemma Darwin_auto_close_nil (d : Z) (st : state W) :
  Darwin.auto_close d None st = (tt, st).
Proof.
  unfold Darwin.auto_close. rewrite andb_comm.
  destruct (bool_decide_reflect (@None error <> None)) as [H|_];
    [contradiction H; reflexivity|].
  reflexivity.
Qed.

(** X20: on Darwin the configuration is neither checked nor applied: for
    every configuration, whatever its parity, stop bits and flow, when
    [lsof] finds no holder and [open], the request for exclusive access
    and the switch to blocking mode succeed, [openPort] returns the handle
    holding that configuration after exactly these four calls; no
    settings are written to the device. *)
Theorem Darwin_openPort_any_config (cfg : Config) (st : state W) (d : Z)
    (w1 w2 w3 w4 : W) :
  os_lsof (Name cfg) (world st) = (Some "exit status 1"%string, w1) ->
  os_open (Name cfg)
    (Z.lor (Z.lor (Z.lor Darwin.O_RDWR Darwin.O_NOCTTY) Darwin.O_NONBLOCK)
       Darwin.O_EXCL) 0 w1 = (d, 0, w2) ->
  os_ioctl d Darwin.TIOCEXCL 0 w2 = (0, w3) ->
  os_setnonblock d false w3 = (0, w4) ->
  Darwin.openPort cfg st =
  (Darwin.handle, None,
   mkState (mkPort d true cfg) w4
     (SysSetNonblock d false :: SysIoctl d Darwin.TIOCEXCL 0 ::
      SysOpen (Name cfg)
        (Z.lor (Z.lor (Z.lor Darwin.O_RDWR Darwin.O_NOCTTY) Darwin.O_NONBLOCK)
           Darwin.O_EXCL) 0 ::
      SysLsof (Name cfg) :: trace st)).
Proof.
  intros H0 H1 H2 H4.
  unfold Darwin.openPort. unfold bind at 1. unfold set_s at 1.
  cbn [Darwin.getTermiosFor fst snd]. unfold bind at 1.
  unfold Darwin.Open. unfold bind at 1. unfold get_s at 1.
  cbn [port opened serialPort_zero]. unfold bind at 1. unfold ret at 1.
  unfold bind at 1. rewrite lsof_run. cbn [port world trace]. rewrite H0.
  cbn [fst snd].
  change (negb (String.eqb "exit status 1" "exit status 1")) with false.
  cbv iota. unfold bind at 1. rewrite unix_Open_run.
  cbn [port world trace]. rewrite H1. cbn [fst snd errnoErr Z.eqb].
  unfold defer, set_fd, set_opened, set_conf, set_s, get_s,
    Darwin.SetTermios.
  unfold bind, ret. cbn [port world trace fd opened conf].
  rewrite unix_ioctl_run. cbn [port world trace]. rewrite H2.
  cbn [fst snd Z.eqb negb]. rewrite Darwin_auto_close_nil.
  cbn [port world trace fd opened conf].
  rewrite unix_SetNonblock_run. cbn [port world trace]. rewrite H4.
  cbn [fst snd errnoErr Z.eqb]. rewrite Darwin_auto_close_nil. reflexivity.
Qed.

End DarwinOpenPort.

Lemma Darwin_openPort_any_config_witness :
  Darwin.openPort (mkConfig "/dev/cu.usbserial" 9600 0 "Z" 7 9)
    (start serialPort_zero healthy) =
  (Darwin.handle, None,
   mkState (mkPort 3 true (mkConfig "/dev/cu.usbserial" 9600 0 "Z" 7 9))
     healthy
     [SysSetNonblock 3 false; SysIoctl 3 Darwin.TIOCEXCL 0;
      SysOpen "/dev/cu.usbserial"
        (Z.lor (Z.lor (Z.lor Darwin.O_RDWR Darwin.O_NOCTTY) Darwin.O_NONBLOCK)
           Darwin.O_EXCL) 0;
      SysLsof "/dev/cu.usbserial"]).
Proof.
  exact (Darwin_openPort_any_config
           (mkConfig "/dev/cu.usbserial" 9600 0 "Z" 7 9)
           (start serialPort_zero healthy) 3 healthy healthy healthy healthy
           eq_refl eq_refl eq_refl eq_refl).
Defined.
